(** * QFileSystemModel excerpt and its test translation units

    The development has two parts.

    - Section [Excerpt]: the member functions that
      [gui/itemmodels/qfilesystemmodel.cpp] defines ([setRootPath],
      [rootPath], [rootDirectory]), as state-passing functions over the
      private data the file touches.  Everything the file calls but does not
      define is a field of [Toolkit]; [Reference] is one toolkit to run
      them with.

    - [Cxx] and the modules named after the translation units: the
      statements of the five files, in source order, as data; the properties
      of the test code are decided by running checkers over them. *)

From Stdlib Require Import String Ascii List Bool NArith ZArith Lia.
Import ListNotations.
Open Scope string_scope.

Definition QString := string.
Definition QStringList := list QString.

(** ** Toolkit value types used by the excerpt *)

(** The preprocessor branches of [setRootPath]: [Q_OS_WIN] with
    [Q_OS_WIN32], [Q_OS_WIN] without it, and neither. *)
Inductive Platform := Win32 | WinOther | NotWin.

(** A [QModelIndex]; the default-constructed one is invalid. *)
Record QModelIndex := { row : Z; column : Z; internalId : N }.

Definition invalidIndex : QModelIndex :=
  {| row := -1; column := -1; internalId := 0 |}.

Definition isValid (i : QModelIndex) : bool :=
  ((0 <=? row i) && (0 <=? column i))%Z.

Module QDir.

Definition Filters := N.

(** A [QDir] value, as far as the excerpt looks at it: the path [path()]
    returns, the name filters and the entry filter.  [setNameFilters] and
    [setFilter] replace one component; what path a [QDir] keeps of a string
    it is given is the toolkit's business and is a field of [Toolkit]. *)
Record t := Build { path : QString; nameFilters : QStringList; filter : Filters }.

Definition setNameFilters (nf : QStringList) (d : t) : t :=
  {| path := path d; nameFilters := nf; filter := filter d |}.

Definition setFilter (f : Filters) (d : t) : t :=
  {| path := path d; nameFilters := nameFilters d; filter := f |}.

(** [QDir::fromNativeSeparators] where it is called, that is on Windows:
    every backslash becomes a slash.  The function is the toolkit's and is
    not in the material; this stands for it in the one branch of
    [longNewPath] that calls it, and says nothing of what else the
    toolkit's function may do to a path. *)
Fixpoint fromNativeSeparators (s : QString) : QString :=
  match s with
  | EmptyString => EmptyString
  | String c r =>
      String (if Ascii.eqb c "\"%char then "/"%char else c) (fromNativeSeparators r)
  end.

End QDir.

(** A signal emission: the signal's name and its arguments. *)
Inductive Signal :=
| rootPathChanged (newPath : QString)
| otherSignal (name : QString) (args : QStringList).

Definition isRootPathChanged (s : Signal) : bool :=
  match s with rootPathChanged _ => true | otherSignal _ _ => false end.

(** ** The model object *)

Section Excerpt.

(** State of [QFileSystemModelPrivate] that the excerpt never names: node
    tree, info gatherer, timers, stored filters. *)
Variable Rest : Type.

(** [d->rootDir], [d->forceSort], the unnamed remainder, and the signals the
    object has emitted so far, oldest first. *)
Record Model := {
  rootDir : QDir.t;
  forceSort : bool;
  rest : Rest;
  emitted : list Signal
}.

(** Member functions run in the state monad over [Model]. *)
Definition M (A : Type) : Type := Model -> A * Model.

Definition ret {A} (a : A) : M A := fun m => (a, m).

Definition bind {A B} (c : M A) (k : A -> M B) : M B :=
  fun m => let (a, m') := c m in k a m'.

Definition get : M Model := fun m => (m, m).

Definition modify (f : Model -> Model) : M unit := fun m => (tt, f m).

Definition exec {A} (c : M A) (m : Model) : Model := snd (c m).

Definition eval {A} (c : M A) (m : Model) : A := fst (c m).

Definition set_rootDir (dir : QDir.t) (m : Model) : Model :=
  {| rootDir := dir; forceSort := forceSort m; rest := rest m; emitted := emitted m |}.

Definition set_forceSort (b : bool) (m : Model) : Model :=
  {| rootDir := rootDir m; forceSort := b; rest := rest m; emitted := emitted m |}.

(** [emit s]: the emission is appended to the log. *)
Definition emit (s : Signal) : M unit :=
  modify (fun m =>
    {| rootDir := rootDir m; forceSort := forceSort m; rest := rest m;
       emitted := emitted m ++ [s] |}).

(** What [qfilesystemmodel.cpp] uses without defining: the platform macros,
    [qt_GetLongPathName], the [QDir] constructor from a path and
    [QDir::setPath], the identifier [showDrives] (read at line 140, declared
    nowhere in the file), [QFileSystemModelPrivate::index],
    [QFileSystemModel::fetchMore], [QFileSystemModelPrivate::delayedSort],
    and the getters [nameFilters()] and [filter()]. *)
Record Toolkit := {
  platform : Platform;
  qt_GetLongPathName : QString -> QString;
  QDir_new : QString -> QDir.t;
  QDir_setPath : QString -> QDir.t -> QDir.t;
  showDrives : bool;
  d_index : QString -> M QModelIndex;
  fetchMore : QModelIndex -> M unit;
  delayedSort : M unit;
  nameFilters : Model -> QStringList;
  filter : Model -> QDir.Filters
}.

Variable tk : Toolkit.

Notation "x <- c ;; k" := (bind c (fun x => k))
  (at level 61, c at next level, right associativity).
Notation "c ;;; k" := (bind c (fun _ => k))
  (at level 61, right associativity).

(** Lines 120-128: the path the comparison and the signal use. *)
Definition longNewPath (newPath : QString) : QString :=
  match platform tk with
  | Win32 => qt_GetLongPathName tk newPath
  | WinOther => QDir.fromNativeSeparators newPath
  | NotWin => newPath
  end.

(** [QString QFileSystemModel::rootPath() const] *)
Definition rootPath : M QString :=
  d <- get ;; ret (QDir.path (rootDir d)).

(** [QModelIndex QFileSystemModel::setRootPath(const QString &newPath)] *)
Definition setRootPath (newPath : QString) : M QModelIndex :=
  let longNewPath := longNewPath newPath in
  d <- get ;;
  if QDir.path (rootDir d) =? longNewPath then
    p <- rootPath ;; d_index tk p
  else
    modify (set_rootDir (QDir_new tk longNewPath)) ;;;
    newRootIndex <-
      (if showDrives tk then
         modify (fun d => set_rootDir (QDir_setPath tk "" (rootDir d)) d) ;;;
         ret invalidIndex
       else
         d <- get ;; d_index tk (QDir.path (rootDir d))) ;;
    fetchMore tk newRootIndex ;;;
    emit (rootPathChanged longNewPath) ;;;
    modify (set_forceSort true) ;;;
    delayedSort tk ;;;
    ret newRootIndex.

(** [QDir QFileSystemModel::rootDirectory() const] *)
Definition rootDirectory : M QDir.t :=
  d <- get ;;
  let dir := rootDir d in
  let dir := QDir.setNameFilters (nameFilters tk d) dir in
  let dir := QDir.setFilter (filter tk d) dir in
  ret dir.

(** The state after lines 137-144 of [setRootPath], where the root
    directory has been replaced and the new root index looked up. *)
Definition retargeted (p : QString) (m : Model) : Model :=
  let m1 := set_rootDir (QDir_new tk (longNewPath p)) m in
  if showDrives tk
  then set_rootDir (QDir_setPath tk "" (rootDir m1)) m1
  else exec (d_index tk (QDir.path (rootDir m1))) m1.

(** The value of [newRootIndex] at line 145. *)
Definition newRootIndex (p : QString) (m : Model) : QModelIndex :=
  let m1 := set_rootDir (QDir_new tk (longNewPath p)) m in
  if showDrives tk
  then invalidIndex
  else eval (d_index tk (QDir.path (rootDir m1))) m1.

(** The member functions the file defines on an existing object. *)
Inductive Method :=
| call_setRootPath (newPath : QString)
| call_rootPath
| call_rootDirectory.

Definition invoke (meth : Method) (m : Model) : Model :=
  match meth with
  | call_setRootPath p => exec (setRootPath p) m
  | call_rootPath => exec rootPath m
  | call_rootDirectory => exec rootDirectory m
  end.

(** A helper is framed when it leaves [rootDir], [forceSort] and the
    emission log alone; it may do anything to [rest]. *)
Definition framed {A} (c : M A) : Prop :=
  forall m, rootDir (exec c m) = rootDir m
         /\ forceSort (exec c m) = forceSort m
         /\ emitted (exec c m) = emitted m.

(** A helper is a lookup when it returns its answer and changes nothing. *)
Definition lookup {A} (c : M A) : Prop := forall m, exec c m = m.

Definition count_rootPathChanged (m : Model) : nat :=
  List.length (List.filter isRootPathChanged (emitted m)).

End Excerpt.

Arguments rootDir {Rest} _.
Arguments forceSort {Rest} _.
Arguments rest {Rest} _.
Arguments emitted {Rest} _.
Arguments exec {Rest A} _ _.
Arguments eval {Rest A} _ _.
Arguments framed {Rest A} _.
Arguments lookup {Rest A} _.
Arguments count_rootPathChanged {Rest} _.
Arguments setRootPath {Rest} _ _.
Arguments rootPath {Rest}.
Arguments rootDirectory {Rest} _.
Arguments longNewPath {Rest} _ _.
Arguments invoke {Rest} _ _ _.
Arguments retargeted {Rest} _ _ _.
Arguments newRootIndex {Rest} _ _ _.
Arguments platform {Rest} _.
Arguments qt_GetLongPathName {Rest} _ _.
Arguments QDir_new {Rest} _ _.
Arguments QDir_setPath {Rest} _ _ _.
Arguments showDrives {Rest} _.
Arguments d_index {Rest} _ _ _.
Arguments fetchMore {Rest} _ _ _.
Arguments delayedSort {Rest} _ _.
Arguments nameFilters {Rest} _ _.
Arguments filter {Rest} _ _.

(** ** A concrete toolkit, to run the excerpt on inputs *)

Module Reference.

(** The unnamed remainder of the private data: how many fetches were
    requested, whether a sort is pending, and the stored filters. *)
Record Hidden := {
  fetches : nat;
  sortPending : bool;
  storedNameFilters : QStringList;
  storedFilters : QDir.Filters
}.

Definition endsWithSlash (p : QString) : bool :=
  match String.get (String.length p - 1) p with
  | Some c => Ascii.eqb c "/"%char
  | None => false
  end.

(** The path a [QDir] keeps: the toolkit drops one trailing slash from a
    path longer than one character. *)
Definition kept (p : QString) : QString :=
  if endsWithSlash p && (1 <? String.length p)%nat
  then substring 0 (String.length p - 1) p
  else p.

(** [QDir(path)]: an empty path stands for the current directory; no name
    filters; entry filter [QDir::AllEntries] (7). *)
Definition newDir (p : QString) : QDir.t :=
  {| QDir.path := kept (if p =? "" then "." else p);
     QDir.nameFilters := [];
     QDir.filter := 7%N |}.

Definition setPath (p : QString) (d : QDir.t) : QDir.t :=
  {| QDir.path := kept p;
     QDir.nameFilters := QDir.nameFilters d;
     QDir.filter := QDir.filter d |}.

Definition indexOf (p : QString) : M Hidden QModelIndex :=
  fun m =>
    (if p =? "" then invalidIndex
     else {| row := 0; column := 0; internalId := N.of_nat (String.length p) |}, m).

Definition withRest (f : Hidden -> Hidden) (m : Model Hidden) : Model Hidden :=
  {| rootDir := rootDir m; forceSort := forceSort m;
     rest := f (rest m); emitted := emitted m |}.

Definition requestFetch (_ : QModelIndex) : M Hidden unit :=
  fun m => (tt, withRest (fun h =>
    {| fetches := S (fetches h); sortPending := sortPending h;
       storedNameFilters := storedNameFilters h;
       storedFilters := storedFilters h |}) m).

Definition scheduleSort : M Hidden unit :=
  fun m => (tt, withRest (fun h =>
    {| fetches := fetches h; sortPending := true;
       storedNameFilters := storedNameFilters h;
       storedFilters := storedFilters h |}) m).

Definition toolkit (drives : bool) : Toolkit Hidden :=
  {| platform := NotWin;
     qt_GetLongPathName := fun p => p;
     QDir_new := newDir;
     QDir_setPath := setPath;
     showDrives := drives;
     d_index := indexOf;
     fetchMore := requestFetch;
     delayedSort := scheduleSort;
     nameFilters := fun m => storedNameFilters (rest m);
     filter := fun m => storedFilters (rest m) |}.

(** A model whose root directory is [p]. *)
Definition modelAt (p : QString) : Model Hidden :=
  {| rootDir := newDir p;
     forceSort := false;
     rest := {| fetches := 0; sortPending := false;
                storedNameFilters := ["*.txt"]; storedFilters := 7%N |};
     emitted := [] |}.

End Reference.

(** ** The five translation units as data *)

Module Cxx.

Local Unset Elimination Schemes.

(** Expressions, with every name spelled as in the source. *)
Inductive Expr :=
| Var (x : string)                                  (* a variable *)
| Str (text : string)                               (* a string literal *)
| Num (text : string)                               (* a numeric literal *)
| Lit (text : string)                               (* true, nullptr *)
| Enum (scope name : string)                        (* Scope::Name as a value *)
| Construct (cls : string) (args : list Expr)       (* Cls(args) *)
| New (cls : string) (args : list Expr)             (* new Cls(args) *)
| Call (obj : Expr) (meth : string) (args : list Expr)   (* obj.meth(args), obj->meth(args) *)
| StaticCall (cls meth : string) (args : list Expr) (* Cls::meth(args) *)
| ThisCall (fn : string) (args : list Expr)         (* fn(args), unqualified *)
| Field (obj : Expr) (name : string)                (* obj.name, obj->name: a data member *)
| Un (op : string) (e : Expr)
| Bin (op : string) (a b : Expr)
| SIGNAL (name params : string).                    (* SIGNAL(name(params)) *)

(** Statements.  [PP] is a preprocessor conditional with both branches;
    [Macro] is a macro used as a statement. *)
Inductive Stmt :=
| Decl (ty x : string) (init : list Expr)
| Assign (lhs rhs : Expr)
| Do (e : Expr)
| Macro (name : string) (args : list Expr)
| If (c : Expr) (thn els : list Stmt)
| ForRange (ty x : string) (range : Expr) (body : list Stmt)
| PP (cond : string) (thn els : list Stmt)
| Return (e : option Expr)
| Throw (e : Expr)
| Emit (signal : string) (args : list Expr).

Local Set Elimination Schemes.

(** A function definition [ret cls::name() { body }]. *)
Record Function := {
  fn_ret : string;
  fn_class : string;
  fn_name : string;
  fn_body : list Stmt
}.

(** A class definition: its name, base classes, declared slots and data
    members (type, name). *)
Record ClassDecl := {
  cd_name : string;
  cd_bases : list string;
  cd_slots : list string;
  cd_fields : list (string * string)
}.

(** A translation unit: file name, [#include]s outside conditionals and
    inside them, classes and functions it defines, and the argument of
    [QTEST_MAIN] when there is one. *)
Record TranslationUnit := {
  tu_file : string;
  tu_includes : list string;
  tu_classes : list ClassDecl;
  tu_functions : list Function;
  tu_main : option string
}.

(** *** Traversals *)

Fixpoint subexprs (e : Expr) : list Expr :=
  e :: match e with
       | Construct _ args | New _ args | StaticCall _ _ args | ThisCall _ args =>
           flat_map subexprs args
       | Call o _ args => subexprs o ++ flat_map subexprs args
       | Field o _ => subexprs o
       | Un _ a => subexprs a
       | Bin _ a b => subexprs a ++ subexprs b
       | Var _ | Str _ | Num _ | Lit _ | Enum _ _ | SIGNAL _ _ => []
       end.

(** The expressions written in a statement itself, not in its blocks. *)
Definition own_exprs (s : Stmt) : list Expr :=
  match s with
  | Decl _ _ init => init
  | Assign l r => [l; r]
  | Do e => [e]
  | Macro _ args => args
  | If c _ _ => [c]
  | ForRange _ _ r _ => [r]
  | PP _ _ _ => []
  | Return (Some e) => [e]
  | Return None => []
  | Throw e => [e]
  | Emit _ args => args
  end.

(** A statement followed by the statements of its blocks, in source order. *)
Fixpoint flatten (s : Stmt) : list Stmt :=
  s :: match s with
       | ForRange _ _ _ b => flat_map flatten b
       | If _ t e | PP _ t e => flat_map flatten t ++ flat_map flatten e
       | _ => []
       end.

Definition statements (f : Function) : list Stmt := flat_map flatten (fn_body f).

Definition expressions (f : Function) : list Expr :=
  flat_map subexprs (flat_map own_exprs (statements f)).

(** [occurs needle hay]: [needle] is a substring of [hay]. *)
Fixpoint occurs (needle hay : string) : bool :=
  String.prefix needle hay ||
  match hay with
  | EmptyString => false
  | String _ r => occurs needle r
  end.

Definition member (x : string) (l : list string) : bool :=
  existsb (String.eqb x) l.

(** The types a function names: declared types, constructed classes and
    the scopes of static calls and enumerators. *)
Definition stmt_types (s : Stmt) : list string :=
  match s with
  | Decl ty _ _ | ForRange ty _ _ _ => [ty]
  | _ => []
  end.

Definition expr_types (e : Expr) : list string :=
  match e with
  | Enum c _ | Construct c _ | New c _ | StaticCall c _ _ => [c]
  | _ => []
  end.

Definition types_named (f : Function) : list string :=
  flat_map stmt_types (statements f) ++ flat_map expr_types (expressions f).

(** The functions a function calls, by name. *)
Definition expr_callee (e : Expr) : list string :=
  match e with
  | Call _ m _ | StaticCall _ m _ | ThisCall m _ => [m]
  | _ => []
  end.

Definition callees (f : Function) : list string :=
  flat_map expr_callee (expressions f).

Definition stmt_macro (s : Stmt) : list string :=
  match s with Macro n _ => [n] | _ => [] end.

Definition macros (f : Function) : list string :=
  flat_map stmt_macro (statements f).

(** Every name a translation unit spells outside comments and literals:
    includes, class names, bases, member types, and for each function its
    types, callees, macros and emitted signals. *)
Definition stmt_emits (s : Stmt) : list string :=
  match s with Emit n _ => [n] | _ => [] end.

Definition class_names (c : ClassDecl) : list string :=
  cd_name c :: cd_bases c ++ map fst (cd_fields c).

Definition function_names (f : Function) : list string :=
  fn_ret f :: fn_class f :: types_named f ++ callees f ++ macros f
    ++ flat_map stmt_emits (statements f).

Definition names (tu : TranslationUnit) : list string :=
  tu_includes tu ++ flat_map class_names (tu_classes tu)
    ++ flat_map function_names (tu_functions tu).

(** *** Assertion macros, spies and waits *)

Definition QVERIFY (e : Expr) : Stmt := Macro "QVERIFY" [e].
Definition QCOMPARE (a b : Expr) : Stmt := Macro "QCOMPARE" [a; b].
Definition QTRY_VERIFY (e : Expr) : Stmt := Macro "QTRY_VERIFY" [e].

Definition assertion_macros : list string := ["QVERIFY"; "QCOMPARE"; "QTRY_VERIFY"].

(** [QSignalSpy x(&sender, SIGNAL(name(params)))] binds spy [x] to [name]. *)
Definition spy_of (s : Stmt) : list (string * string) :=
  match s with
  | Decl ty x [_; SIGNAL name _] => if ty =? "QSignalSpy" then [(x, name)] else []
  | _ => []
  end.

Definition spies (f : Function) : list (string * string) :=
  flat_map spy_of (statements f).

Definition is_var (x : string) (e : Expr) : bool :=
  match e with Var y => x =? y | _ => false end.

Definition mentions (x : string) (s : Stmt) : bool :=
  existsb (is_var x) (flat_map subexprs (own_exprs s)).

(** The signals whose spies a statement mentions. *)
Definition signals_of (sp : list (string * string)) (s : Stmt) : list string :=
  map snd (List.filter (fun xs => mentions (fst xs) s) sp).

(** A statement asserts on signal [sig] when it is a statement macro whose
    arguments mention a spy bound to [sig]. *)
Definition asserts_on (sp : list (string * string)) (sigs : list string) (s : Stmt) : bool :=
  match s with
  | Macro _ _ => existsb (fun g => member g sigs) (signals_of sp s)
  | _ => false
  end.

(** Polling or timeout-bounded waiting: [QTRY_VERIFY], [spy.wait(ms)] on a
    declared spy, [QTest::qWait(ms)]. *)
Definition is_wait_expr (sp : list (string * string)) (e : Expr) : bool :=
  match e with
  | Call (Var x) m _ => (m =? "wait") && member x (map fst sp)
  | StaticCall c m _ => (c =? "QTest") && (m =? "qWait")
  | _ => false
  end.

Definition is_wait (sp : list (string * string)) (s : Stmt) : bool :=
  match s with
  | Macro n _ => n =? "QTRY_VERIFY"
  | _ => false
  end || existsb (is_wait_expr sp) (flat_map subexprs (own_exprs s)).

(** [in_order step w l]: run [step] over [l], telling each statement
    whether a wait came at or before it.  Waits inside a block do not count
    for what follows the block. *)
Fixpoint in_order (wait : Stmt -> bool) (step : bool -> Stmt -> bool)
    (w : bool) (l : list Stmt) : bool :=
  match l with
  | [] => true
  | s :: l' => step (w || wait s) s && in_order wait step (w || wait s) l'
  end.

(** [awaited_stmt sp sigs w s]: every assertion on a signal of [sigs] in
    [s] has a wait at or before it ([w] tells whether one came already,
    [s] itself included). *)
Fixpoint awaited_stmt (sp : list (string * string)) (sigs : list string)
    (w : bool) (s : Stmt) : bool :=
  (negb (asserts_on sp sigs s) || w) &&
  match s with
  | ForRange _ _ _ b => in_order (is_wait sp) (awaited_stmt sp sigs) w b
  | If _ t e | PP _ t e =>
      in_order (is_wait sp) (awaited_stmt sp sigs) w t
      && in_order (is_wait sp) (awaited_stmt sp sigs) w e
  | _ => true
  end.

Definition awaited (sigs : list string) (f : Function) : bool :=
  in_order (is_wait (spies f)) (awaited_stmt (spies f) sigs) false (fn_body f).

Definition asserts_signal (sigs : list string) (f : Function) : bool :=
  existsb (asserts_on (spies f) sigs) (statements f).

Definition has_wait (f : Function) : bool :=
  existsb (is_wait (spies f)) (statements f).

End Cxx.

(** Abbreviations for the transcriptions. *)
Module CxxNotations.
Import Cxx.

(** [x.meth(args)] on a named variable. *)
Definition on (x meth : string) (args : list Expr) : Expr := Call (Var x) meth args.

(** [void cls::name() { body }] *)
Definition void_member (cls name : string) (body : list Stmt) : Function :=
  {| fn_ret := "void"; fn_class := cls; fn_name := name; fn_body := body |}.

(** [m_tempPath + "suffix"] *)
Definition m_tempPath_plus (suffix : string) : Expr :=
  Bin "+" (Var "m_tempPath") (Str suffix).

Definition WriteOnly : Expr := Enum "QIODevice" "WriteOnly".

(** [QFileSystemModel model;] *)
Definition model_decl : Stmt := Decl "QFileSystemModel" "model" [].

(** [model.setRootPath(m_tempPath);] *)
Definition setRootPath_temp : Stmt := Do (on "model" "setRootPath" [Var "m_tempPath"]).

(** [QSignalSpy loadedSpy(&model, SIGNAL(directoryLoaded(QString)));] *)
Definition loadedSpy_decl : Stmt :=
  Decl "QSignalSpy" "loadedSpy" [Un "&" (Var "model"); SIGNAL "directoryLoaded" "QString"].

(** [QVERIFY(loadedSpy.wait(5000));] *)
Definition loadedSpy_wait : Stmt :=
  Macro "QVERIFY" [on "loadedSpy" "wait" [Num "5000"]].

(** The members every fixture declares. *)
Definition fixture (name : string) (slots : list string) : ClassDecl :=
  {| cd_name := name;
     cd_bases := ["QObject"];
     cd_slots := slots;
     cd_fields := [("QTemporaryDir", "m_tempDir"); ("QString", "m_tempPath")] |}.

End CxxNotations.

(** *** corelib/io/tst_qfilesystemwatcher.cpp *)

Module tst_QFileSystemWatcher.
Import Cxx CxxNotations.

Definition cls : string := "tst_QFileSystemWatcher".

Definition initTestCase : Function := void_member cls "initTestCase"
  [ QVERIFY (on "m_tempDir" "isValid" []);
    Assign (Var "m_tempPath") (on "m_tempDir" "path" []) ].

Definition cleanupTestCase : Function := void_member cls "cleanupTestCase" [].

Definition addPath : Function := void_member cls "addPath"
  [ Decl "QFileSystemWatcher" "watcher" [];
    Decl "QString" "filePath" [m_tempPath_plus "/test_add_path.txt"];
    Decl "QFile" "file" [Var "filePath"];
    QVERIFY (on "file" "open" [WriteOnly]);
    Do (on "file" "write" [Str "test content"]);
    Do (on "file" "close" []);
    Decl "bool" "added" [on "watcher" "addPath" [Var "filePath"]];
    QVERIFY (Var "added");
    Decl "QStringList" "files" [on "watcher" "files" []];
    QVERIFY (on "files" "contains" [Var "filePath"]) ].

Definition addPaths : Function := void_member cls "addPaths"
  [ Decl "QFileSystemWatcher" "watcher" [];
    Decl "QStringList" "paths" [];
    Do (Bin "<<" (Bin "<<" (Var "paths") (m_tempPath_plus "/test_add_paths1.txt"))
                 (m_tempPath_plus "/test_add_paths2.txt"));
    ForRange "const QString &" "path" (Var "paths")
      [ Decl "QFile" "file" [Var "path"];
        QVERIFY (on "file" "open" [WriteOnly]);
        Do (on "file" "write" [Str "test content"]);
        Do (on "file" "close" []) ];
    Decl "QStringList" "addedPaths" [on "watcher" "addPaths" [Var "paths"]];
    QVERIFY (on "addedPaths" "isEmpty" []);
    Decl "QStringList" "files" [on "watcher" "files" []];
    ForRange "const QString &" "path" (Var "paths")
      [ QVERIFY (on "files" "contains" [Var "path"]) ] ].

Definition removePath : Function := void_member cls "removePath"
  [ Decl "QFileSystemWatcher" "watcher" [];
    Decl "QString" "filePath" [m_tempPath_plus "/test_remove_path.txt"];
    Decl "QFile" "file" [Var "filePath"];
    QVERIFY (on "file" "open" [WriteOnly]);
    Do (on "file" "write" [Str "test content"]);
    Do (on "file" "close" []);
    Do (on "watcher" "addPath" [Var "filePath"]);
    QVERIFY (Call (on "watcher" "files" []) "contains" [Var "filePath"]);
    Decl "bool" "removed" [on "watcher" "removePath" [Var "filePath"]];
    QVERIFY (Var "removed");
    Decl "QStringList" "files" [on "watcher" "files" []];
    QVERIFY (Un "!" (on "files" "contains" [Var "filePath"])) ].

Definition removePaths : Function := void_member cls "removePaths"
  [ Decl "QFileSystemWatcher" "watcher" [];
    Decl "QStringList" "paths" [];
    Do (Bin "<<" (Bin "<<" (Var "paths") (m_tempPath_plus "/test_remove_paths1.txt"))
                 (m_tempPath_plus "/test_remove_paths2.txt"));
    ForRange "const QString &" "path" (Var "paths")
      [ Decl "QFile" "file" [Var "path"];
        QVERIFY (on "file" "open" [WriteOnly]);
        Do (on "file" "write" [Str "test content"]);
        Do (on "file" "close" []);
        Do (on "watcher" "addPath" [Var "path"]) ];
    QVERIFY (Bin ">=" (Call (on "watcher" "files" []) "size" []) (Num "2"));
    Decl "QStringList" "removedPaths" [on "watcher" "removePaths" [Var "paths"]];
    QVERIFY (on "removedPaths" "isEmpty" []);
    Decl "QStringList" "files" [on "watcher" "files" []];
    ForRange "const QString &" "path" (Var "paths")
      [ QVERIFY (Un "!" (on "files" "contains" [Var "path"])) ] ].

Definition files : Function := void_member cls "files"
  [ Decl "QFileSystemWatcher" "watcher" [];
    Decl "QStringList" "testFiles" [];
    Do (Bin "<<" (Bin "<<" (Var "testFiles") (m_tempPath_plus "/test_files1.txt"))
                 (m_tempPath_plus "/test_files2.txt"));
    ForRange "const QString &" "filePath" (Var "testFiles")
      [ Decl "QFile" "file" [Var "filePath"];
        QVERIFY (on "file" "open" [WriteOnly]);
        Do (on "file" "write" [Str "test content"]);
        Do (on "file" "close" []);
        Do (on "watcher" "addPath" [Var "filePath"]) ];
    Decl "QStringList" "files" [on "watcher" "files" []];
    QCOMPARE (on "files" "size" []) (on "testFiles" "size" []);
    ForRange "const QString &" "filePath" (Var "testFiles")
      [ QVERIFY (on "files" "contains" [Var "filePath"]) ] ].

Definition directories : Function := void_member cls "directories"
  [ Decl "QFileSystemWatcher" "watcher" [];
    Decl "QString" "dirPath" [m_tempPath_plus "/test_watch_dir"];
    Do (Call (Construct "QDir" []) "mkdir" [Var "dirPath"]);
    Do (on "watcher" "addPath" [Var "dirPath"]);
    Decl "QStringList" "directories" [on "watcher" "directories" []];
    QVERIFY (on "directories" "contains" [Var "dirPath"]) ].

Definition fileChanged : Function := void_member cls "fileChanged"
  [ Decl "QFileSystemWatcher" "watcher" [];
    Decl "QString" "filePath" [m_tempPath_plus "/test_file_changed.txt"];
    Decl "QFile" "file" [Var "filePath"];
    QVERIFY (on "file" "open" [WriteOnly]);
    Do (on "file" "write" [Str "initial content"]);
    Do (on "file" "close" []);
    Do (on "watcher" "addPath" [Var "filePath"]);
    Decl "QSignalSpy" "fileChangedSpy"
      [Un "&" (Var "watcher"); SIGNAL "fileChanged" "QString"];
    QVERIFY (on "file" "open" [Bin "|" WriteOnly (Enum "QIODevice" "Truncate")]);
    Do (on "file" "write" [Str "modified content"]);
    Do (on "file" "close" []);
    QTRY_VERIFY (Bin ">" (on "fileChangedSpy" "count" []) (Num "0"));
    QCOMPARE (Call (Call (on "fileChangedSpy" "at" [Num "0"]) "at" [Num "0"]) "toString" [])
             (Var "filePath") ].

Definition directoryChanged : Function := void_member cls "directoryChanged"
  [ Decl "QFileSystemWatcher" "watcher" [];
    Decl "QString" "dirPath" [m_tempPath_plus "/test_dir_changed"];
    Do (Call (Construct "QDir" []) "mkdir" [Var "dirPath"]);
    Do (on "watcher" "addPath" [Var "dirPath"]);
    Decl "QSignalSpy" "dirChangedSpy"
      [Un "&" (Var "watcher"); SIGNAL "directoryChanged" "QString"];
    Decl "QString" "newFilePath" [Bin "+" (Var "dirPath") (Str "/new_file.txt")];
    Decl "QFile" "file" [Var "newFilePath"];
    QVERIFY (on "file" "open" [WriteOnly]);
    Do (on "file" "write" [Str "test"]);
    Do (on "file" "close" []);
    QTRY_VERIFY (Bin ">" (on "dirChangedSpy" "count" []) (Num "0"));
    QCOMPARE (Call (Call (on "dirChangedSpy" "at" [Num "0"]) "at" [Num "0"]) "toString" [])
             (Var "dirPath") ].

Definition multipleWatchers : Function := void_member cls "multipleWatchers"
  [ Decl "QFileSystemWatcher" "watcher1" [];
    Decl "QFileSystemWatcher" "watcher2" [];
    Decl "QString" "filePath" [m_tempPath_plus "/test_multiple_watchers.txt"];
    Decl "QFile" "file" [Var "filePath"];
    QVERIFY (on "file" "open" [WriteOnly]);
    Do (on "file" "write" [Str "test"]);
    Do (on "file" "close" []);
    Do (on "watcher1" "addPath" [Var "filePath"]);
    Do (on "watcher2" "addPath" [Var "filePath"]);
    Decl "QSignalSpy" "spy1" [Un "&" (Var "watcher1"); SIGNAL "fileChanged" "QString"];
    Decl "QSignalSpy" "spy2" [Un "&" (Var "watcher2"); SIGNAL "fileChanged" "QString"];
    QVERIFY (on "file" "open" [Bin "|" WriteOnly (Enum "QIODevice" "Truncate")]);
    Do (on "file" "write" [Str "modified"]);
    Do (on "file" "close" []);
    QTRY_VERIFY (Bin ">" (on "spy1" "count" []) (Num "0"));
    QTRY_VERIFY (Bin ">" (on "spy2" "count" []) (Num "0"));
    QCOMPARE (Call (Call (on "spy1" "at" [Num "0"]) "at" [Num "0"]) "toString" [])
             (Var "filePath");
    QCOMPARE (Call (Call (on "spy2" "at" [Num "0"]) "at" [Num "0"]) "toString" [])
             (Var "filePath") ].

Definition unit : TranslationUnit :=
  {| tu_file := "corelib/io/tst_qfilesystemwatcher.cpp";
     tu_includes :=
       [ "QtTest/QtTest"; "QtCore/QTemporaryDir"; "QtCore/QTemporaryFile";
         "QtCore/QFileSystemWatcher"; "tst_qfilesystemwatcher.moc" ];
     tu_classes :=
       [ fixture cls
           [ "initTestCase"; "cleanupTestCase"; "addPath"; "addPaths"; "removePath";
             "removePaths"; "files"; "directories"; "fileChanged"; "directoryChanged";
             "multipleWatchers" ] ];
     tu_functions :=
       [ initTestCase; cleanupTestCase; addPath; addPaths; removePath; removePaths;
         files; directories; fileChanged; directoryChanged; multipleWatchers ];
     tu_main := Some cls |}.

End tst_QFileSystemWatcher.

(** *** gui/itemmodels/tst_qfilesystemmodel.cpp *)

Module tst_QFileSystemModel.
Import Cxx CxxNotations.

Definition cls : string := "tst_QFileSystemModel".

Definition initTestCase : Function := void_member cls "initTestCase"
  [ QVERIFY (on "m_tempDir" "isValid" []);
    Assign (Var "m_tempPath") (on "m_tempDir" "path" []);
    Decl "QDir" "dir" [Var "m_tempPath"];
    QVERIFY (on "dir" "mkdir" [Str "subdir"]);
    QVERIFY (on "dir" "mkdir" [Str "subdir2"]);
    Decl "QFile" "file" [m_tempPath_plus "/file1.txt"];
    QVERIFY (on "file" "open" [WriteOnly]);
    Do (on "file" "write" [Str "test"]);
    Do (on "file" "close" []);
    Decl "QFile" "file2" [m_tempPath_plus "/file2.txt"];
    QVERIFY (on "file2" "open" [WriteOnly]);
    Do (on "file2" "write" [Str "test2"]);
    Do (on "file2" "close" []);
    PP "ifdef Q_OS_WIN"
      [ Do (StaticCall "QFile" "setPermissions"
              [ m_tempPath_plus "/file1.txt";
                Bin "|" (Bin "|" (Enum "QFile" "ReadOwner") (Enum "QFile" "WriteOwner"))
                        (Enum "QFile" "Hidden") ]) ]
      [] ].

Definition cleanupTestCase : Function := void_member cls "cleanupTestCase" [].

Definition rootPath : Function := void_member cls "rootPath"
  [ model_decl;
    QCOMPARE (on "model" "rootPath" []) (Construct "QString" []);
    Decl "QString" "homePath" [StaticCall "QDir" "homePath" []];
    Do (on "model" "setRootPath" [Var "homePath"]);
    QCOMPARE (on "model" "rootPath" []) (Var "homePath") ].

Definition index : Function := void_member cls "index"
  [ model_decl;
    setRootPath_temp;
    Decl "QModelIndex" "invalid" [on "model" "index" [Un "-" (Num "1"); Num "0"]];
    QVERIFY (Un "!" (on "invalid" "isValid" []));
    Decl "QModelIndex" "rootIndex" [on "model" "index" [Var "m_tempPath"]];
    QVERIFY (on "rootIndex" "isValid" []);
    QCOMPARE (on "model" "filePath" [Var "rootIndex"]) (Var "m_tempPath");
    loadedSpy_decl;
    loadedSpy_wait;
    Decl "QModelIndex" "childIndex" [on "model" "index" [Num "0"; Num "0"; Var "rootIndex"]];
    If (Bin ">" (on "model" "rowCount" [Var "rootIndex"]) (Num "0"))
      [ QVERIFY (on "childIndex" "isValid" []);
        QVERIFY (Un "!" (Call (on "model" "fileName" [Var "childIndex"]) "isEmpty" [])) ]
      [] ].

Definition data : Function := void_member cls "data"
  [ model_decl;
    setRootPath_temp;
    loadedSpy_decl;
    loadedSpy_wait;
    Decl "QModelIndex" "rootIndex" [on "model" "index" [Var "m_tempPath"]];
    QVERIFY (on "rootIndex" "isValid" []);
    Decl "QVariant" "displayData"
      [on "model" "data" [Var "rootIndex"; Enum "Qt" "DisplayRole"]];
    QVERIFY (on "displayData" "isValid" []);
    Decl "QVariant" "fileNameData"
      [on "model" "data" [Var "rootIndex"; Enum "QFileSystemModel" "FileNameRole"]];
    QVERIFY (on "fileNameData" "isValid" []);
    Decl "QVariant" "filePathData"
      [on "model" "data" [Var "rootIndex"; Enum "QFileSystemModel" "FilePathRole"]];
    QCOMPARE (on "filePathData" "toString" []) (Var "m_tempPath") ].

Definition setRootPath : Function := void_member cls "setRootPath"
  [ model_decl;
    Decl "QSignalSpy" "rootPathChangedSpy"
      [Un "&" (Var "model"); SIGNAL "rootPathChanged" "QString"];
    Decl "QString" "newPath" [Var "m_tempPath"];
    Decl "QModelIndex" "index" [on "model" "setRootPath" [Var "newPath"]];
    QCOMPARE (on "model" "rootPath" []) (Var "newPath");
    QCOMPARE (on "rootPathChangedSpy" "count" []) (Num "1");
    QCOMPARE
      (Call (Call (on "rootPathChangedSpy" "at" [Num "0"]) "at" [Num "0"]) "toString" [])
      (Var "newPath");
    QVERIFY (on "index" "isValid" []) ].

Definition rowCount : Function := void_member cls "rowCount"
  [ model_decl;
    setRootPath_temp;
    Decl "QModelIndex" "rootIndex" [on "model" "index" [Var "m_tempPath"]];
    loadedSpy_decl;
    loadedSpy_wait;
    Decl "int" "count" [on "model" "rowCount" [Var "rootIndex"]];
    QVERIFY (Bin ">=" (Var "count") (Num "0")) ].

Definition remove : Function := void_member cls "remove"
  [ Decl "QTemporaryFile" "tempFile" [m_tempPath_plus "/remove_test_XXXXXX.txt"];
    QVERIFY (on "tempFile" "open" []);
    Do (on "tempFile" "write" [Str "test content"]);
    Do (on "tempFile" "close" []);
    Decl "QString" "filePath" [on "tempFile" "fileName" []];
    model_decl;
    setRootPath_temp;
    loadedSpy_decl;
    loadedSpy_wait;
    Decl "QModelIndex" "fileIndex" [on "model" "index" [Var "filePath"]];
    QVERIFY (on "fileIndex" "isValid" []);
    Decl "bool" "removed" [on "model" "remove" [Var "fileIndex"]];
    QVERIFY (Var "removed");
    QVERIFY (Un "!" (StaticCall "QFile" "exists" [Var "filePath"])) ].

Definition mkdir : Function := void_member cls "mkdir"
  [ model_decl;
    setRootPath_temp;
    loadedSpy_decl;
    loadedSpy_wait;
    Decl "QModelIndex" "rootIndex" [on "model" "index" [Var "m_tempPath"]];
    QVERIFY (on "rootIndex" "isValid" []);
    Decl "QString" "newDirName" [Str "test_mkdir_dir"];
    Decl "QModelIndex" "newDirIndex" [on "model" "mkdir" [Var "rootIndex"; Var "newDirName"]];
    QVERIFY (on "newDirIndex" "isValid" []);
    Decl "QString" "expectedPath"
      [Bin "+" (Bin "+" (Var "m_tempPath") (Str "/")) (Var "newDirName")];
    QCOMPARE (on "model" "filePath" [Var "newDirIndex"]) (Var "expectedPath");
    QVERIFY (Call (Construct "QDir" [Var "expectedPath"]) "exists" []) ].

Definition filters : Function := void_member cls "filters"
  [ model_decl;
    Decl "QDir::Filters" "filters"
      [Bin "|" (Enum "QDir" "AllEntries") (Enum "QDir" "NoDotAndDotDot")];
    Do (on "model" "setFilter" [Var "filters"]);
    QCOMPARE (on "model" "filter" []) (Var "filters") ].

Definition nameFilters : Function := void_member cls "nameFilters"
  [ model_decl;
    Decl "QStringList" "filters"
      [Bin "<<" (Bin "<<" (Construct "QStringList" []) (Str "*.txt")) (Str "*.cpp")];
    Do (on "model" "setNameFilters" [Var "filters"]);
    QCOMPARE (on "model" "nameFilters" []) (Var "filters") ].

Definition permissions : Function := void_member cls "permissions"
  [ model_decl;
    setRootPath_temp;
    loadedSpy_decl;
    loadedSpy_wait;
    Decl "QModelIndex" "rootIndex" [on "model" "index" [Var "m_tempPath"]];
    QVERIFY (on "rootIndex" "isValid" []);
    Decl "QFile::Permissions" "perms" [on "model" "permissions" [Var "rootIndex"]];
    QVERIFY (Bin "!=" (Var "perms") (Num "0")) ].

Definition fileInfo : Function := void_member cls "fileInfo"
  [ model_decl;
    setRootPath_temp;
    loadedSpy_decl;
    loadedSpy_wait;
    Decl "QModelIndex" "rootIndex" [on "model" "index" [Var "m_tempPath"]];
    QVERIFY (on "rootIndex" "isValid" []);
    Decl "QFileInfo" "info" [on "model" "fileInfo" [Var "rootIndex"]];
    QVERIFY (on "info" "exists" []);
    QCOMPARE (on "info" "absoluteFilePath" []) (Var "m_tempPath") ].

Definition sort : Function := void_member cls "sort"
  [ model_decl;
    setRootPath_temp;
    loadedSpy_decl;
    loadedSpy_wait;
    Do (on "model" "sort" [Num "0"; Enum "Qt" "AscendingOrder"]);
    QCOMPARE (on "model" "sortRole" []) (Num "0");
    Do (on "model" "sort" [Num "1"; Enum "Qt" "DescendingOrder"]);
    QCOMPARE (on "model" "sortRole" []) (Num "1") ].

Definition icons : Function := void_member cls "icons"
  [ model_decl;
    Decl "QFileIconProvider *" "provider" [New "QFileIconProvider" []];
    Do (on "model" "setIconProvider" [Var "provider"]);
    QCOMPARE (on "model" "iconProvider" []) (Var "provider");
    setRootPath_temp;
    loadedSpy_decl;
    loadedSpy_wait;
    Decl "QModelIndex" "rootIndex" [on "model" "index" [Var "m_tempPath"]];
    QVERIFY (on "rootIndex" "isValid" []);
    Decl "QIcon" "icon"
      [Call (on "model" "data" [Var "rootIndex"; Enum "Qt" "DecorationRole"]) "value<QIcon>" []];
    QVERIFY (Un "!" (on "icon" "isNull" [])) ].

Definition hidden : Function := void_member cls "hidden"
  [ model_decl;
    Do (on "model" "setFilter"
          [Bin "|" (Bin "|" (Enum "QDir" "AllEntries") (Enum "QDir" "NoDotAndDotDot"))
                   (Enum "QDir" "Hidden")]);
    QVERIFY (Bin "&" (on "model" "filter" []) (Enum "QDir" "Hidden"));
    Do (on "model" "setFilter"
          [Bin "|" (Enum "QDir" "AllEntries") (Enum "QDir" "NoDotAndDotDot")]);
    QVERIFY (Un "!" (Bin "&" (on "model" "filter" []) (Enum "QDir" "Hidden"))) ].

Definition myComputer : Function := void_member cls "myComputer"
  [ model_decl;
    Decl "QModelIndex" "myComputerIndex" [on "model" "index" [Str "/"]];
    QVERIFY (on "myComputerIndex" "isValid" []);
    Decl "QVariant" "data" [on "model" "data" [Var "myComputerIndex"; Enum "Qt" "DisplayRole"]];
    QVERIFY (on "data" "isValid" []) ].

Definition shortcut : Function := void_member cls "shortcut"
  [ PP "ifdef Q_OS_WIN"
      [ model_decl;
        Do (on "model" "setResolveSymlinks" [Lit "true"]);
        QVERIFY (on "model" "resolveSymlinks" []);
        Do (on "model" "setResolveSymlinks" [Lit "false"]);
        QVERIFY (Un "!" (on "model" "resolveSymlinks" [])) ]
      [] ].

Definition caseSensitivity : Function := void_member cls "caseSensitivity"
  [ model_decl;
    PP "ifdef Q_OS_WIN"
      [ QVERIFY (Un "!" (on "model" "caseSensitivity" [])) ]
      [ QVERIFY (on "model" "caseSensitivity" []) ] ].

Definition drives : Function := void_member cls "drives"
  [ model_decl;
    Do (on "model" "setRootPath" [Str "/"]);
    loadedSpy_decl;
    loadedSpy_wait;
    QVERIFY (Bin ">=" (on "model" "rowCount" []) (Num "1")) ].

Definition unit : TranslationUnit :=
  {| tu_file := "gui/itemmodels/tst_qfilesystemmodel.cpp";
     tu_includes :=
       [ "QtTest/QtTest"; "QtCore/QTemporaryDir"; "QtCore/QTemporaryFile";
         "QtGui/QFileSystemModel"; "QtWidgets/QApplication";
         "QtWidgets/QFileIconProvider"; "tst_qfilesystemmodel.moc" ];
     tu_classes :=
       [ fixture cls
           [ "initTestCase"; "cleanupTestCase"; "rootPath"; "index"; "data";
             "setRootPath"; "rowCount"; "remove"; "mkdir"; "filters"; "nameFilters";
             "permissions"; "fileInfo"; "sort"; "icons"; "hidden"; "myComputer";
             "shortcut"; "caseSensitivity"; "drives" ] ];
     tu_functions :=
       [ initTestCase; cleanupTestCase; rootPath; index; data; setRootPath; rowCount;
         remove; mkdir; filters; nameFilters; permissions; fileInfo; sort; icons;
         hidden; myComputer; shortcut; caseSensitivity; drives ];
     tu_main := Some cls |}.

End tst_QFileSystemModel.

(** *** gui/itemmodels/tst_qfileinfogatherer.cpp *)

Module tst_QFileInfoGatherer.
Import Cxx CxxNotations.

Definition cls : string := "tst_QFileInfoGatherer".

Definition initTestCase : Function := void_member cls "initTestCase"
  [ QVERIFY (on "m_tempDir" "isValid" []);
    Assign (Var "m_tempPath") (on "m_tempDir" "path" []);
    Decl "QDir" "dir" [Var "m_tempPath"];
    QVERIFY (on "dir" "mkdir" [Str "testdir"]);
    Decl "QFile" "file" [m_tempPath_plus "/testfile.txt"];
    QVERIFY (on "file" "open" [WriteOnly]);
    Do (on "file" "write" [Str "test content"]);
    Do (on "file" "close" []);
    Decl "QString" "subDirPath" [m_tempPath_plus "/testdir"];
    Decl "QFile" "subFile" [Bin "+" (Var "subDirPath") (Str "/subfile.txt")];
    QVERIFY (on "subFile" "open" [WriteOnly]);
    Do (on "subFile" "write" [Str "sub content"]);
    Do (on "subFile" "close" []);
    PP "ifdef Q_OS_UNIX"
      [ Decl "QString" "linkPath" [m_tempPath_plus "/testlink"];
        Do (StaticCall "QFile" "link" [m_tempPath_plus "/testfile.txt"; Var "linkPath"]) ]
      [] ].

Definition cleanupTestCase : Function := void_member cls "cleanupTestCase" [].

Definition basicFileInfo : Function := void_member cls "basicFileInfo"
  [ model_decl;
    setRootPath_temp;
    loadedSpy_decl;
    loadedSpy_wait;
    Decl "QModelIndex" "fileIndex" [on "model" "index" [m_tempPath_plus "/testfile.txt"]];
    QVERIFY (on "fileIndex" "isValid" []);
    Decl "QFileInfo" "info" [on "model" "fileInfo" [Var "fileIndex"]];
    QVERIFY (on "info" "exists" []);
    QCOMPARE (on "info" "fileName" []) (Construct "QString" [Str "testfile.txt"]);
    QCOMPARE (on "info" "size" []) (Construct "qint64" [Num "12"]);
    QVERIFY (on "info" "isFile" []);
    QVERIFY (Un "!" (on "info" "isDir" [])) ].

Definition directoryInfo : Function := void_member cls "directoryInfo"
  [ model_decl;
    setRootPath_temp;
    loadedSpy_decl;
    loadedSpy_wait;
    Decl "QModelIndex" "dirIndex" [on "model" "index" [m_tempPath_plus "/testdir"]];
    QVERIFY (on "dirIndex" "isValid" []);
    Decl "QFileInfo" "info" [on "model" "fileInfo" [Var "dirIndex"]];
    QVERIFY (on "info" "exists" []);
    QCOMPARE (on "info" "fileName" []) (Construct "QString" [Str "testdir"]);
    QVERIFY (on "info" "isDir" []);
    QVERIFY (Un "!" (on "info" "isFile" [])) ].

Definition hiddenFiles : Function := void_member cls "hiddenFiles"
  [ model_decl;
    setRootPath_temp;
    Decl "QString" "hiddenFilePath" [m_tempPath_plus "/.hiddenfile"];
    Decl "QFile" "hiddenFile" [Var "hiddenFilePath"];
    QVERIFY (on "hiddenFile" "open" [WriteOnly]);
    Do (on "hiddenFile" "write" [Str "hidden content"]);
    Do (on "hiddenFile" "close" []);
    PP "ifdef Q_OS_UNIX"
      [ Decl "QFileInfo" "info" [Var "hiddenFilePath"];
        QVERIFY (on "info" "isHidden" []) ]
      [];
    loadedSpy_decl;
    loadedSpy_wait;
    Do (on "model" "setFilter"
          [Bin "|" (Bin "|" (Enum "QDir" "AllEntries") (Enum "QDir" "Hidden"))
                   (Enum "QDir" "NoDotAndDotDot")]);
    Decl "QModelIndex" "hiddenIndex" [on "model" "index" [Var "hiddenFilePath"]];
    If (on "hiddenIndex" "isValid" [])
      [ Decl "QFileInfo" "hiddenInfo" [on "model" "fileInfo" [Var "hiddenIndex"]];
        QCOMPARE (on "hiddenInfo" "fileName" []) (Construct "QString" [Str ".hiddenfile"]) ]
      [] ].

Definition symlinks : Function := void_member cls "symlinks"
  [ PP "ifdef Q_OS_UNIX"
      [ model_decl;
        setRootPath_temp;
        loadedSpy_decl;
        loadedSpy_wait;
        Decl "QModelIndex" "linkIndex" [on "model" "index" [m_tempPath_plus "/testlink"]];
        QVERIFY (on "linkIndex" "isValid" []);
        Decl "QFileInfo" "info" [on "model" "fileInfo" [Var "linkIndex"]];
        QVERIFY (on "info" "exists" []);
        QCOMPARE (on "info" "fileName" []) (Construct "QString" [Str "testlink"]);
        QVERIFY (on "info" "isSymLink" []);
        Do (on "model" "setResolveSymlinks" [Lit "true"]);
        QVERIFY (on "model" "resolveSymlinks" []);
        Do (on "model" "setResolveSymlinks" [Lit "false"]);
        QVERIFY (Un "!" (on "model" "resolveSymlinks" [])) ]
      [] ].

Definition permissions : Function := void_member cls "permissions"
  [ model_decl;
    setRootPath_temp;
    loadedSpy_decl;
    loadedSpy_wait;
    Decl "QModelIndex" "fileIndex" [on "model" "index" [m_tempPath_plus "/testfile.txt"]];
    QVERIFY (on "fileIndex" "isValid" []);
    Decl "QFile::Permissions" "perms" [on "model" "permissions" [Var "fileIndex"]];
    QVERIFY (Bin "!=" (Var "perms") (Num "0"));
    QVERIFY (Bin "&" (Var "perms") (Enum "QFile" "ReadOwner")) ].

Definition iconProvider : Function := void_member cls "iconProvider"
  [ model_decl;
    QVERIFY (Bin "!=" (on "model" "iconProvider" []) (Lit "nullptr"));
    Decl "QFileIconProvider *" "customProvider" [New "QFileIconProvider" []];
    Do (on "model" "setIconProvider" [Var "customProvider"]);
    QCOMPARE (on "model" "iconProvider" []) (Var "customProvider");
    setRootPath_temp;
    loadedSpy_decl;
    loadedSpy_wait;
    Decl "QModelIndex" "fileIndex" [on "model" "index" [m_tempPath_plus "/testfile.txt"]];
    QVERIFY (on "fileIndex" "isValid" []);
    Decl "QIcon" "icon"
      [Call (on "model" "data" [Var "fileIndex"; Enum "Qt" "DecorationRole"]) "value<QIcon>" []];
    QVERIFY (Un "!" (on "icon" "isNull" [])) ].

Definition fileWatching : Function := void_member cls "fileWatching"
  [ model_decl;
    setRootPath_temp;
    loadedSpy_decl;
    loadedSpy_wait;
    Decl "QString" "newFilePath" [m_tempPath_plus "/watched_file.txt"];
    Decl "QFile" "newFile" [Var "newFilePath"];
    QVERIFY (on "newFile" "open" [WriteOnly]);
    Do (on "newFile" "write" [Str "watched content"]);
    Do (on "newFile" "close" []);
    Decl "QSignalSpy" "fileChangedSpy"
      [Un "&" (Var "model"); SIGNAL "fileChanged" "QString,QString,QString"];
    Decl "QSignalSpy" "directoryChangedSpy"
      [Un "&" (Var "model"); SIGNAL "directoryLoaded" "QString"];
    Do (StaticCall "QTest" "qWait" [Num "1000"]);
    QVERIFY (on "newFile" "open" [Bin "|" WriteOnly (Enum "QIODevice" "Append")]);
    Do (on "newFile" "write" [Str " modified"]);
    Do (on "newFile" "close" []);
    Do (StaticCall "QTest" "qWait" [Num "1000"]);
    Do (StaticCall "QFile" "remove" [Var "newFilePath"]) ].

Definition unit : TranslationUnit :=
  {| tu_file := "gui/itemmodels/tst_qfileinfogatherer.cpp";
     tu_includes :=
       [ "QtTest/QtTest"; "QtCore/QTemporaryDir"; "QtGui/QFileSystemModel";
         "QtWidgets/QApplication"; "tst_qfileinfogatherer.moc" ];
     tu_classes :=
       [ fixture cls
           [ "initTestCase"; "cleanupTestCase"; "basicFileInfo"; "directoryInfo";
             "hiddenFiles"; "symlinks"; "permissions"; "iconProvider"; "fileWatching" ] ];
     tu_functions :=
       [ initTestCase; cleanupTestCase; basicFileInfo; directoryInfo; hiddenFiles;
         symlinks; permissions; iconProvider; fileWatching ];
     tu_main := Some cls |}.

End tst_QFileInfoGatherer.

(** *** widgets/dialogs/tst_qfiledialog.cpp *)

Module tst_QFileDialog.
Import Cxx CxxNotations.

Definition cls : string := "tst_QFileDialog".

Definition dialog_decl : Stmt := Decl "QFileDialog" "dialog" [].

Definition initTestCase : Function := void_member cls "initTestCase"
  [ QVERIFY (on "m_tempDir" "isValid" []);
    Assign (Var "m_tempPath") (on "m_tempDir" "path" []);
    Decl "QFile" "file1" [m_tempPath_plus "/test1.txt"];
    QVERIFY (on "file1" "open" [WriteOnly]);
    Do (on "file1" "write" [Str "test content 1"]);
    Do (on "file1" "close" []);
    Decl "QFile" "file2" [m_tempPath_plus "/test2.txt"];
    QVERIFY (on "file2" "open" [WriteOnly]);
    Do (on "file2" "write" [Str "test content 2"]);
    Do (on "file2" "close" []);
    Do (Call (Construct "QDir" []) "mkdir" [m_tempPath_plus "/subdir"]) ].

Definition cleanupTestCase : Function := void_member cls "cleanupTestCase" [].

Definition getOpenFileName : Function := void_member cls "getOpenFileName"
  [ Decl "QString" "fileName"
      [StaticCall "QFileDialog" "getOpenFileName"
         [ Lit "nullptr"; Str "Test Open File"; Var "m_tempPath";
           Str "Text files (*.txt);;All files (*)" ]];
    QVERIFY (Lit "true") ].

Definition getSaveFileName : Function := void_member cls "getSaveFileName"
  [ Decl "QString" "fileName"
      [StaticCall "QFileDialog" "getSaveFileName"
         [ Lit "nullptr"; Str "Test Save File"; m_tempPath_plus "/save_test.txt";
           Str "Text files (*.txt);;All files (*)" ]];
    QVERIFY (Lit "true") ].

Definition getExistingDirectory : Function := void_member cls "getExistingDirectory"
  [ Decl "QString" "dirName"
      [StaticCall "QFileDialog" "getExistingDirectory"
         [ Lit "nullptr"; Str "Test Select Directory"; Var "m_tempPath" ]];
    QVERIFY (Lit "true") ].

Definition setDirectory : Function := void_member cls "setDirectory"
  [ dialog_decl;
    Do (on "dialog" "setDirectory" [Var "m_tempPath"]);
    QCOMPARE (Call (on "dialog" "directory" []) "absolutePath" []) (Var "m_tempPath");
    Decl "QDir" "testDir" [Var "m_tempPath"];
    Do (on "dialog" "setDirectory" [Var "testDir"]);
    QCOMPARE (Call (on "dialog" "directory" []) "absolutePath" []) (Var "m_tempPath") ].

Definition selectFile : Function := void_member cls "selectFile"
  [ dialog_decl;
    Do (on "dialog" "setDirectory" [Var "m_tempPath"]);
    Decl "QString" "testFile" [Str "test1.txt"];
    Do (on "dialog" "selectFile" [Var "testFile"]);
    Decl "QStringList" "selected" [on "dialog" "selectedFiles" []];
    QVERIFY (Bin "||"
      (on "selected" "contains"
         [Bin "+" (Bin "+" (Var "m_tempPath") (Str "/")) (Var "testFile")])
      (on "selected" "contains" [Var "testFile"])) ].

Definition selectedFiles : Function := void_member cls "selectedFiles"
  [ dialog_decl;
    Do (on "dialog" "setDirectory" [Var "m_tempPath"]);
    Decl "QStringList" "selected" [on "dialog" "selectedFiles" []];
    QVERIFY (Bin ">=" (on "selected" "size" []) (Num "0")) ].

Definition setNameFilter : Function := void_member cls "setNameFilter"
  [ dialog_decl;
    Decl "QString" "filter" [Str "Text files (*.txt)"];
    Do (on "dialog" "setNameFilter" [Var "filter"]);
    Decl "QStringList" "filters" [on "dialog" "nameFilters" []];
    QVERIFY (on "filters" "contains" [Var "filter"]) ].

Definition setNameFilters : Function := void_member cls "setNameFilters"
  [ dialog_decl;
    Decl "QStringList" "filters" [];
    Do (Bin "<<" (Bin "<<" (Bin "<<" (Var "filters") (Str "Text files (*.txt)"))
                           (Str "C++ files (*.cpp *.h)"))
                 (Str "All files (*)"));
    Do (on "dialog" "setNameFilters" [Var "filters"]);
    QCOMPARE (on "dialog" "nameFilters" []) (Var "filters") ].

Definition setViewMode : Function := void_member cls "setViewMode"
  [ dialog_decl;
    Do (on "dialog" "setViewMode" [Enum "QFileDialog" "Detail"]);
    QCOMPARE (on "dialog" "viewMode" []) (Enum "QFileDialog" "Detail");
    Do (on "dialog" "setViewMode" [Enum "QFileDialog" "List"]);
    QCOMPARE (on "dialog" "viewMode" []) (Enum "QFileDialog" "List") ].

Definition setFileMode : Function := void_member cls "setFileMode"
  [ dialog_decl;
    Do (on "dialog" "setFileMode" [Enum "QFileDialog" "AnyFile"]);
    QCOMPARE (on "dialog" "fileMode" []) (Enum "QFileDialog" "AnyFile");
    Do (on "dialog" "setFileMode" [Enum "QFileDialog" "ExistingFile"]);
    QCOMPARE (on "dialog" "fileMode" []) (Enum "QFileDialog" "ExistingFile");
    Do (on "dialog" "setFileMode" [Enum "QFileDialog" "Directory"]);
    QCOMPARE (on "dialog" "fileMode" []) (Enum "QFileDialog" "Directory");
    Do (on "dialog" "setFileMode" [Enum "QFileDialog" "ExistingFiles"]);
    QCOMPARE (on "dialog" "fileMode" []) (Enum "QFileDialog" "ExistingFiles") ].

Definition setAcceptMode : Function := void_member cls "setAcceptMode"
  [ dialog_decl;
    Do (on "dialog" "setAcceptMode" [Enum "QFileDialog" "AcceptOpen"]);
    QCOMPARE (on "dialog" "acceptMode" []) (Enum "QFileDialog" "AcceptOpen");
    Do (on "dialog" "setAcceptMode" [Enum "QFileDialog" "AcceptSave"]);
    QCOMPARE (on "dialog" "acceptMode" []) (Enum "QFileDialog" "AcceptSave") ].

Definition options : Function := void_member cls "options"
  [ dialog_decl;
    Decl "QFileDialog::Options" "defaultOptions" [on "dialog" "options" []];
    QVERIFY (Bin "==" (Var "defaultOptions") (Num "0"));
    Do (on "dialog" "setOption" [Enum "QFileDialog" "DontUseNativeDialog"; Lit "true"]);
    QVERIFY (on "dialog" "testOption" [Enum "QFileDialog" "DontUseNativeDialog"]);
    Do (on "dialog" "setOption" [Enum "QFileDialog" "DontUseNativeDialog"; Lit "false"]);
    QVERIFY (Un "!" (on "dialog" "testOption" [Enum "QFileDialog" "DontUseNativeDialog"]));
    Decl "QFileDialog::Options" "options" [];
    Do (on "options" "setFlag" [Enum "QFileDialog" "DontResolveSymlinks"]);
    Do (on "options" "setFlag" [Enum "QFileDialog" "ReadOnly"]);
    Do (on "dialog" "setOptions" [Var "options"]);
    QVERIFY (on "dialog" "testOption" [Enum "QFileDialog" "DontResolveSymlinks"]);
    QVERIFY (on "dialog" "testOption" [Enum "QFileDialog" "ReadOnly"]);
    QVERIFY (Un "!" (on "dialog" "testOption" [Enum "QFileDialog" "DontUseNativeDialog"])) ].

Definition sidebarUrls : Function := void_member cls "sidebarUrls"
  [ dialog_decl;
    Decl "QList<QUrl>" "urls" [];
    Do (Bin "<<" (Bin "<<" (Var "urls") (StaticCall "QUrl" "fromLocalFile" [Var "m_tempPath"]))
                 (StaticCall "QUrl" "fromLocalFile" [StaticCall "QDir" "homePath" []]));
    Do (on "dialog" "setSidebarUrls" [Var "urls"]);
    Decl "QList<QUrl>" "retrievedUrls" [on "dialog" "sidebarUrls" []];
    QVERIFY (Bin ">=" (on "retrievedUrls" "size" []) (Num "0")) ].

Definition history : Function := void_member cls "history"
  [ dialog_decl;
    Decl "QStringList" "history" [];
    Do (Bin "<<" (Bin "<<" (Bin "<<" (Var "history") (Var "m_tempPath"))
                           (StaticCall "QDir" "homePath" []))
                 (StaticCall "QDir" "tempPath" []));
    Do (on "dialog" "setHistory" [Var "history"]);
    Decl "QStringList" "retrievedHistory" [on "dialog" "history" []];
    QVERIFY (Bin ">=" (on "retrievedHistory" "size" []) (Num "0")) ].

Definition defaultSuffix : Function := void_member cls "defaultSuffix"
  [ dialog_decl;
    Decl "QString" "suffix" [Str "txt"];
    Do (on "dialog" "setDefaultSuffix" [Var "suffix"]);
    QCOMPARE (on "dialog" "defaultSuffix" []) (Var "suffix");
    Do (on "dialog" "setDefaultSuffix" [Construct "QString" []]);
    QCOMPARE (on "dialog" "defaultSuffix" []) (Construct "QString" []) ].

Definition mimeTypeFilters : Function := void_member cls "mimeTypeFilters"
  [ PP "if QT_CONFIG(mimetype)"
      [ dialog_decl;
        Decl "QStringList" "mimeTypes" [];
        Do (Bin "<<" (Bin "<<" (Var "mimeTypes") (Str "text/plain")) (Str "text/html"));
        Do (on "dialog" "setMimeTypeFilters" [Var "mimeTypes"]);
        QCOMPARE (on "dialog" "mimeTypeFilters" []) (Var "mimeTypes") ]
      [] ].

Definition unit : TranslationUnit :=
  {| tu_file := "widgets/dialogs/tst_qfiledialog.cpp";
     tu_includes :=
       [ "QtTest/QtTest"; "QtCore/QTemporaryDir"; "QtWidgets/QFileDialog";
         "QtWidgets/QApplication"; "QtWidgets/QPushButton"; "QtWidgets/QLineEdit";
         "QtWidgets/QTreeView"; "QtWidgets/QListView"; "tst_qfiledialog.moc" ];
     tu_classes :=
       [ fixture cls
           [ "initTestCase"; "cleanupTestCase"; "getOpenFileName"; "getSaveFileName";
             "getExistingDirectory"; "setDirectory"; "selectFile"; "selectedFiles";
             "setNameFilter"; "setNameFilters"; "setViewMode"; "setFileMode";
             "setAcceptMode"; "options"; "sidebarUrls"; "history"; "defaultSuffix";
             "mimeTypeFilters" ] ];
     tu_functions :=
       [ initTestCase; cleanupTestCase; getOpenFileName; getSaveFileName;
         getExistingDirectory; setDirectory; selectFile; selectedFiles; setNameFilter;
         setNameFilters; setViewMode; setFileMode; setAcceptMode; options; sidebarUrls;
         history; defaultSuffix; mimeTypeFilters ];
     tu_main := Some cls |}.

End tst_QFileDialog.

(** *** gui/itemmodels/qfilesystemmodel.cpp *)

Module qfilesystemmodel_cpp.
Import Cxx CxxNotations.

Definition cls : string := "QFileSystemModel".

(** The delegating constructor; its initializer is the only thing it runs. *)
Definition ctor_parent : Function :=
  {| fn_ret := ""; fn_class := cls; fn_name := "QFileSystemModel";
     fn_body :=
       [ Do (Construct "QFileSystemModel"
               [Un "*" (New "QFileSystemModelPrivate" []); Var "parent"]) ] |}.

Definition ctor_private : Function :=
  {| fn_ret := ""; fn_class := cls; fn_name := "QFileSystemModel";
     fn_body :=
       [ Do (Construct "QAbstractItemModel" [Var "dd"; Var "parent"]);
         Do (Call (ThisCall "d_func" []) "init" []) ] |}.

(** [= default] *)
Definition dtor : Function :=
  {| fn_ret := ""; fn_class := cls; fn_name := "~QFileSystemModel"; fn_body := [] |}.

Definition setRootPath : Function :=
  {| fn_ret := "QModelIndex"; fn_class := cls; fn_name := "setRootPath";
     fn_body :=
       [ Macro "Q_D" [Var "QFileSystemModel"];
         PP "ifdef Q_OS_WIN"
           [ PP "ifdef Q_OS_WIN32"
               [ Decl "QString" "longNewPath" [ThisCall "qt_GetLongPathName" [Var "newPath"]] ]
               [ Decl "QString" "longNewPath"
                   [StaticCall "QDir" "fromNativeSeparators" [Var "newPath"]] ] ]
           [ Decl "QString" "longNewPath" [Var "newPath"] ];
         If (Bin "==" (Call (Field (Var "d") "rootDir") "path" []) (Var "longNewPath"))
           [ Return (Some (on "d" "index" [ThisCall "rootPath" []])) ]
           [];
         Assign (Field (Var "d") "rootDir") (Construct "QDir" [Var "longNewPath"]);
         Decl "QModelIndex" "newRootIndex" [];
         If (Var "showDrives")
           [ Do (Call (Field (Var "d") "rootDir") "setPath" [Str ""]) ]
           [ Assign (Var "newRootIndex")
               (on "d" "index" [Call (Field (Var "d") "rootDir") "path" []]) ];
         Do (ThisCall "fetchMore" [Var "newRootIndex"]);
         Emit "rootPathChanged" [Var "longNewPath"];
         Assign (Field (Var "d") "forceSort") (Lit "true");
         Do (on "d" "delayedSort" []);
         Return (Some (Var "newRootIndex")) ] |}.

Definition rootPath : Function :=
  {| fn_ret := "QString"; fn_class := cls; fn_name := "rootPath";
     fn_body :=
       [ Macro "Q_D" [Var "const QFileSystemModel"];
         Return (Some (Call (Field (Var "d") "rootDir") "path" [])) ] |}.

Definition rootDirectory : Function :=
  {| fn_ret := "QDir"; fn_class := cls; fn_name := "rootDirectory";
     fn_body :=
       [ Macro "Q_D" [Var "const QFileSystemModel"];
         Decl "QDir" "dir" [Field (Var "d") "rootDir"];
         Do (on "dir" "setNameFilters" [ThisCall "nameFilters" []]);
         Do (on "dir" "setFilter" [ThisCall "filter" []]);
         Return (Some (Var "dir")) ] |}.

Definition unit : TranslationUnit :=
  {| tu_file := "gui/itemmodels/qfilesystemmodel.cpp";
     tu_includes :=
       [ "qfilesystemmodel_p.h"; "qfilesystemmodel.h"; "qabstractfileiconprovider.h";
         "qlocale.h"; "qmimedata.h"; "qurl.h"; "qdebug.h"; "QtCore/qcollator.h";
         "QtCore/qregularexpression.h"; "algorithm"; "QtCore/QVarLengthArray";
         "<qt_windows.h>"; "shlobj.h"; "moc_qfilesystemmodel.cpp" ];
     tu_classes := [];
     tu_functions := [ctor_parent; ctor_private; dtor; setRootPath; rootPath; rootDirectory];
     tu_main := None |}.

End qfilesystemmodel_cpp.

(** ** The material as a whole, and the checks run over it *)

Module Material.
Import Cxx.

Definition test_units : list TranslationUnit :=
  [ tst_QFileSystemWatcher.unit; tst_QFileSystemModel.unit;
    tst_QFileInfoGatherer.unit; tst_QFileDialog.unit ].

Definition all_units : list TranslationUnit :=
  test_units ++ [qfilesystemmodel_cpp.unit].

Definition test_functions : list Function := flat_map tu_functions test_units.

(** The signals the tests wait for. *)
Definition async_signals : list string :=
  ["directoryLoaded"; "fileChanged"; "rootPathChanged"].

(** The six toolkit entity types. *)
Definition entity_types : list string :=
  [ "QFileSystemWatcher"; "QFileSystemModel"; "QModelIndex"; "QFileInfo"; "QDir";
    "QFileDialog" ].

Definition qualified (f : Function) : string := fn_class f ++ "::" ++ fn_name f.

(** *** Which class an invocation is on *)

(** The declared type of a variable of a function: a local declaration, a
    range variable, or a data member of the fixture. *)
Definition stmt_binding (s : Stmt) : list (string * string) :=
  match s with
  | Decl ty x _ | ForRange ty x _ _ => [(x, ty)]
  | _ => []
  end.

Definition bindings (tu : TranslationUnit) (f : Function) : list (string * string) :=
  flat_map stmt_binding (statements f)
    ++ map (fun tn => (snd tn, fst tn)) (flat_map cd_fields (tu_classes tu)).

Definition type_of (env : list (string * string)) (x : string) : option string :=
  match List.find (fun b => fst b =? x) env with
  | Some b => Some (snd b)
  | None => None
  end.

(** The class whose operation an expression invokes, when the expression is
    an invocation and the source tells the class: the declared type of a
    named receiver, the class of a temporary receiver, the scope of a static
    call, the class constructed.  A call on the result of another call is
    an operation of whatever the toolkit returns there. *)
Definition invoked_class (env : list (string * string)) (e : Expr) : list string :=
  match e with
  | Call (Var x) _ _ => match type_of env x with Some ty => [ty] | None => [] end
  | Call (Construct c _) _ _ => [c]
  | StaticCall c _ _ => [c]
  | Construct c _ | New c _ => [c]
  | _ => []
  end.

Definition stmt_constructs (s : Stmt) : list string :=
  match s with Decl ty _ _ => [ty] | _ => [] end.

(** Every class some operation of which a function invokes by name,
    constructors of declared objects included. *)
Definition invoked_classes (tu : TranslationUnit) (f : Function) : list string :=
  flat_map stmt_constructs (statements f)
    ++ flat_map (invoked_class (bindings tu f)) (expressions f).


(** *** Failure signalling *)

Definition is_return_value (s : Stmt) : bool :=
  match s with Return (Some _) => true | _ => false end.

Definition is_throw (s : Stmt) : bool :=
  match s with Throw _ => true | _ => false end.

Definition is_free_call (e : Expr) : bool :=
  match e with ThisCall _ _ => true | _ => false end.

(** A test function reports only through the three assertion macros: it
    returns [void], every statement macro in it is one of the three, and it
    has no [return value], no [throw] and no call of a free function. *)
Definition reports_by_macros_only (f : Function) : bool :=
  (fn_ret f =? "void")
  && forallb (fun n => member n assertion_macros) (macros f)
  && negb (existsb is_return_value (statements f))
  && negb (existsb is_throw (statements f))
  && negb (existsb is_free_call (expressions f)).

(** *** Threads *)

(** Name fragments of thread creation and inter-thread synchronization in
    the toolkit and in the standard library. *)
Definition threading_words : list string :=
  [ "Thread"; "thread"; "Mutex"; "mutex"; "Semaphore"; "WaitCondition"; "Lock";
    "lock"; "Concurrent"; "Future"; "Promise"; "Atomic"; "atomic"; "Runnable";
    "async"; "condition_variable"; "invokeMethod" ].

Definition is_threading (name : string) : bool :=
  existsb (fun w => occurs w name) threading_words.

Definition thread_free (tu : TranslationUnit) : bool :=
  negb (existsb is_threading (names tu)).

(** The sender class of a spy: the declared type of [x] in [&x]. *)
Definition spy_sender (env : list (string * string)) (s : Stmt) : list string :=
  match s with
  | Decl ty _ [Un _ (Var x); SIGNAL _ _] =>
      if ty =? "QSignalSpy"
      then match type_of env x with Some t => [t] | None => ["?"] end
      else []
  | _ => []
  end.

(** A function reads its spies only inside the assertion macros: every
    statement that mentions a spy is one of the three macros. *)
Definition spies_read_in_assertions (f : Function) : bool :=
  forallb (fun s =>
    negb (existsb (fun x => mentions x s) (map fst (spies f)))
    || match s with
       | Macro n _ => member n assertion_macros
       | _ => false
       end) (statements f).

(** The test functions proper of a unit: all but the two fixture hooks. *)
Definition is_hook (f : Function) : bool :=
  (fn_name f =? "initTestCase") || (fn_name f =? "cleanupTestCase").


(** The names of a unit other than its fixture's own. *)
Definition foreign_names (tu : TranslationUnit) : list string :=
  List.filter (fun n => negb (member n (map cd_name (tu_classes tu)))) (names tu).

(** Some function of the unit invokes an operation of class [c]. *)
Definition exercises (tu : TranslationUnit) (c : string) : bool :=
  existsb (fun f => member c (invoked_classes tu f)) (tu_functions tu).

Definition spy_senders : list string :=
  nodup string_dec
    (flat_map (fun tu =>
       flat_map (fun f => flat_map (spy_sender (bindings tu f)) (statements f))
         (tu_functions tu)) test_units).

(** *** Use of the entity types *)

(** The operation an expression invokes on class [ty], if any. *)
Definition operation_on (env : list (string * string)) (ty : string) (e : Expr)
    : list string :=
  match e with
  | Call (Var x) m _ =>
      match type_of env x with
      | Some t => if t =? ty then [m] else []
      | None => []
      end
  | Call (Construct c _) m _ | StaticCall c m _ => if c =? ty then [m] else []
  | _ => []
  end.

(** Every operation the tests invoke on class [ty], each once. *)
Definition operations_on (ty : string) : list string :=
  nodup string_dec
    (flat_map (fun tu =>
       flat_map (fun f => flat_map (operation_on (bindings tu f) ty) (expressions f))
         (tu_functions tu)) test_units).

Definition is_field (e : Expr) : bool :=
  match e with Field _ _ => true | _ => false end.

Definition is_private_header (h : string) : bool :=
  occurs "_p.h" h || occurs "private/" h.

(** A translation unit uses the toolkit as-is: the only class it defines is
    one fixture deriving from [QObject] alone, named as in [QTEST_MAIN];
    every function it defines is a member of that fixture; it includes no
    private header; and no expression reads or writes a data member or goes
    through [d_func()]. *)
Definition uses_toolkit_as_is (tu : TranslationUnit) : bool :=
  match tu_classes tu, tu_main tu with
  | [c], Some main =>
      (cd_name c =? main)
      && forallb (String.eqb "QObject") (cd_bases c)
      && (List.length (cd_bases c) =? 1)%nat
      && forallb (fun f => (fn_class f =? cd_name c) && member (fn_name f) (cd_slots c))
           (tu_functions tu)
  | _, _ => false
  end
  && negb (existsb is_private_header (tu_includes tu))
  && forallb (fun f =>
       negb (existsb is_field (expressions f))
       && negb (member "d_func" (callees f))
       && negb (member "Q_D" (macros f)))
     (tu_functions tu).


End Material.

(** ** Successive calls on one model *)

Section Sequences.

Context {Rest : Type} (tk : Toolkit Rest).

(** [setRootPath(p1); setRootPath(p2); ...] on one model, results dropped. *)
Fixpoint setRootPaths (ps : list QString) (m : Model Rest) : Model Rest :=
  match ps with
  | [] => m
  | p :: ps' => setRootPaths ps' (exec (setRootPath tk p) m)
  end.

(** The path of the root directory that lines 137-141 leave for normalized
    path [q]: [QDir(q)], and under [showDrives] that after [setPath("")]. *)
Definition stored (q : QString) : QString :=
  QDir.path (if showDrives tk
             then QDir_setPath tk "" (QDir_new tk q)
             else QDir_new tk q).

(** The normalized paths that get past the comparison of line 131, when
    the calls arrive with normalized paths [qs] and the root path is [cur]. *)
Fixpoint announced (cur : QString) (qs : list QString) : list QString :=
  match qs with
  | [] => []
  | q :: qs' => if cur =? q then announced cur qs' else q :: announced (stored q) qs'
  end.

(** The root path after those calls. *)
Fixpoint settled (cur : QString) (qs : list QString) : QString :=
  match qs with
  | [] => cur
  | q :: qs' => if cur =? q then settled cur qs' else settled (stored q) qs'
  end.

End Sequences.

(** [qs] without the elements equal to their predecessor, [cur] being the
    predecessor of the first. *)
Fixpoint without_repeats (cur : QString) (qs : list QString) : list QString :=
  match qs with
  | [] => []
  | q :: qs' => if cur =? q then without_repeats cur qs' else q :: without_repeats q qs'
  end.

(** ** The info gatherer behind [fetchMore] *)

Module Gatherer.

(** Modelled from the spec: [QFileSystemModel::fetchMore] and the info
    gatherer it drives, which the excerpt leaves out ("Core model
    implementation methods would be here...").  The spec counts the
    model's "background info-gathering thread" among the logic elided
    from the excerpt and names [QFileInfoGatherer] as the class that
    [tst_qfileinfogatherer.cpp] tests; the class comment of the excerpt
    says the model "will not start populating itself until setRootPath()
    is called".  So [fetchMore(parent)] is taken to hand the directory at
    [parent] to the gatherer: one gathering request, queued behind those
    already pending ([gather] below; [Requests] is the queue). *)
Definition Requests := list QModelIndex.

Definition gather (parent : QModelIndex) : M Requests unit :=
  fun m =>
    (tt, {| rootDir := rootDir m; forceSort := forceSort m;
            rest := (rest m ++ [parent])%list; emitted := emitted m |}).

(** A toolkit whose [fetchMore] is [gather], to run the excerpt with. *)
Definition toolkit : Toolkit Requests :=
  {| platform := NotWin;
     qt_GetLongPathName := fun p => p;
     QDir_new := Reference.newDir;
     QDir_setPath := Reference.setPath;
     showDrives := false;
     d_index := fun p m =>
       (if p =? "" then invalidIndex
        else {| row := 0; column := 0; internalId := N.of_nat (String.length p) |}, m);
     fetchMore := gather;
     delayedSort := fun m => (tt, m);
     nameFilters := fun _ => [];
     filter := fun _ => 7%N |}.

(** A model with root path [p] and nothing asked of the gatherer yet. *)
Definition modelAt (p : QString) : Model Requests :=
  {| rootDir := Reference.newDir p; forceSort := false; rest := []; emitted := [] |}.

End Gatherer.



Definition has_backslash (s : QString) : bool :=
  existsb (Ascii.eqb "\"%char) (list_ascii_of_string s).

(** ** More checks over the test translation units *)

Module Configurations.
Import Cxx Material.

(** What the preprocessor leaves of a statement when [holds] tells which
    conditions are true: the chosen branch of each conditional. *)
Fixpoint preprocess (holds : string -> bool) (s : Stmt) : list Stmt :=
  match s with
  | PP c t e =>
      if holds c then flat_map (preprocess holds) t else flat_map (preprocess holds) e
  | If c t e =>
      [If c (flat_map (preprocess holds) t) (flat_map (preprocess holds) e)]
  | ForRange ty x r b => [ForRange ty x r (flat_map (preprocess holds) b)]
  | _ => [s]
  end.

(** The statements of a function in a configuration, blocks included. *)
Definition compiled (holds : string -> bool) (f : Function) : list Stmt :=
  flat_map flatten (flat_map (preprocess holds) (fn_body f)).

Definition is_assertion (s : Stmt) : bool :=
  match s with
  | Macro n _ => member n assertion_macros
  | _ => false
  end.

Definition is_nil {A} (l : list A) : bool :=
  match l with [] => true | _ :: _ => false end.

Definition asserts_something (holds : string -> bool) (f : Function) : bool :=
  existsb is_assertion (compiled holds f).

(** The three test functions whose whole body sits in a conditional, each
    with its condition. *)
Definition conditional_tests : list (string * string) :=
  [ ("tst_QFileSystemModel::shortcut", "ifdef Q_OS_WIN");
    ("tst_QFileInfoGatherer::symlinks", "ifdef Q_OS_UNIX");
    ("tst_QFileDialog::mimeTypeFilters", "if QT_CONFIG(mimetype)") ].

Definition condition_of (f : Function) : option string :=
  match List.find (fun nc => fst nc =? qualified f) conditional_tests with
  | Some nc => Some (snd nc)
  | None => None
  end.

(** *** Spies and the call they listen to *)

(** The variables on which a statement calls [setRootPath]. *)
Definition setRootPath_receiver (e : Expr) : list string :=
  match e with
  | Call (Var x) m _ => if m =? "setRootPath" then [x] else []
  | _ => []
  end.

Definition setRootPath_receivers (s : Stmt) : list string :=
  flat_map setRootPath_receiver (flat_map subexprs (own_exprs s)).

(** [QSignalSpy spy(&x, SIGNAL(sig(...)))]: the sender [x] and [sig]. *)
Definition spy_binding (s : Stmt) : list (string * string) :=
  match s with
  | Decl ty _ [Un _ (Var x); SIGNAL n _] => if ty =? "QSignalSpy" then [(x, n)] else []
  | _ => []
  end.

(** Walking the statements in source order with the receivers of the
    [setRootPath] calls seen so far: every spy on [sig] is declared after a
    call on its sender ([after = true]) or before any ([after = false]). *)
Fixpoint spies_ordered (after : bool) (sig : string) (called : list string)
    (l : list Stmt) : bool :=
  match l with
  | [] => true
  | s :: l' =>
      forallb (fun b => negb (snd b =? sig) || Bool.eqb (member (fst b) called) after)
        (spy_binding s)
      && spies_ordered after sig (called ++ setRootPath_receivers s) l'
  end.

Definition spies_after_call (sig : string) (f : Function) : bool :=
  spies_ordered true sig [] (statements f).

Definition spies_before_call (sig : string) (f : Function) : bool :=
  spies_ordered false sig [] (statements f).

Definition spies_on (sig : string) (f : Function) : list string :=
  map fst (List.filter (fun xs => snd xs =? sig) (spies f)).

(** The spies a function declares and never mentions again. *)
Definition unread_spies (f : Function) : list string :=
  map fst (List.filter (fun xs => negb (existsb (mentions (fst xs)) (statements f)))
             (spies f)).

(** *** Tests that only assert [true] *)

(** [QVERIFY(true)] *)
Definition is_verify_true (s : Stmt) : bool :=
  match s with
  | Macro n [Lit t] => (n =? "QVERIFY") && (t =? "true")
  | _ => false
  end.

(** A function asserts, and every assertion in it is [QVERIFY(true)]. *)
Definition asserts_true_only (f : Function) : bool :=
  existsb is_assertion (statements f)
  && forallb (fun s => negb (is_assertion s) || is_verify_true s) (statements f).

(** The whole body is [QString x = QFileDialog::name(args); QVERIFY(true);]
    with [name] the function's own name: the static dialog function is
    called and its result, kept in [x], is read by nothing. *)
Definition calls_dialog_and_drops (f : Function) : bool :=
  match fn_body f with
  | [Decl ty _ [StaticCall c m _]; Macro n [Lit t]] =>
      (ty =? "QString") && (c =? "QFileDialog") && (m =? fn_name f)
      && (n =? "QVERIFY") && (t =? "true")
  | _ => false
  end.

Definition static_dialog_tests : list string :=
  [ "tst_QFileDialog::getOpenFileName"; "tst_QFileDialog::getSaveFileName";
    "tst_QFileDialog::getExistingDirectory" ].

(** *** The fixture *)

Definition fixture_members : list string := ["m_tempDir"; "m_tempPath"].

Definition assigns_member (s : Stmt) : bool :=
  match s with
  | Assign (Var x) _ => member x fixture_members
  | _ => false
  end.

Definition writes_fixture (f : Function) : bool :=
  existsb assigns_member (statements f).

End Configurations.

(** * Properties of the excerpt *)

Section ExcerptFacts.

Context {Rest : Type} (tk : Toolkit Rest).

Lemma lookup_framed {A} (c : M Rest A) : lookup c -> framed c.
Proof.
  intros H m. rewrite (H m). repeat split.
Qed.

(** [rootPath] reads [d->rootDir] and nothing else happens. *)
Lemma rootPath_run (m : Model Rest) :
  rootPath m = (QDir.path (rootDir m), m).
Proof. reflexivity. Qed.

Lemma rootDirectory_run (m : Model Rest) :
  rootDirectory tk m =
    (QDir.setFilter (filter tk m) (QDir.setNameFilters (nameFilters tk m) (rootDir m)), m).
Proof. reflexivity. Qed.

(** The early return of [setRootPath]: the call is the index lookup. *)
Lemma setRootPath_same (p : QString) (m : Model Rest) :
  QDir.path (rootDir m) = longNewPath tk p ->
  setRootPath tk p m = d_index tk (QDir.path (rootDir m)) m.
Proof.
  intros H. apply String.eqb_eq in H.
  unfold setRootPath, bind, get. rewrite H. reflexivity.
Qed.

(** The other path through [setRootPath], statement by statement. *)
Lemma setRootPath_other (p : QString) (m : Model Rest) :
  QDir.path (rootDir m) <> longNewPath tk p ->
  setRootPath tk p m =
    (newRootIndex tk p m,
     exec (delayedSort tk)
       (set_forceSort Rest true
          (exec (emit Rest (rootPathChanged (longNewPath tk p)))
             (exec (fetchMore tk (newRootIndex tk p m)) (retargeted tk p m))))).
Proof.
  intros H. apply String.eqb_neq in H.
  unfold setRootPath, newRootIndex, retargeted, bind, get, modify, ret, exec, eval.
  rewrite H. cbn [rootDir set_rootDir].
  destruct (showDrives tk).
  - cbn [rootDir set_rootDir].
    destruct (fetchMore tk invalidIndex _) as [[] m3]. cbn [snd fst emit modify].
    destruct (delayedSort tk _) as [[] m6]. reflexivity.
  - destruct (d_index tk _ _) as [i m2]. cbn [snd fst].
    destruct (fetchMore tk i m2) as [[] m3]. cbn [snd fst emit modify].
    destruct (delayedSort tk _) as [[] m6]. reflexivity.
Qed.

Hypothesis index_framed : forall q, framed (d_index tk q).
Hypothesis fetchMore_framed : forall i, framed (fetchMore tk i).
Hypothesis delayedSort_framed : framed (delayedSort tk).

Lemma retargeted_frame (p : QString) (m : Model Rest) :
  rootDir (retargeted tk p m) =
    (if showDrives tk
     then QDir_setPath tk "" (QDir_new tk (longNewPath tk p))
     else QDir_new tk (longNewPath tk p))
  /\ emitted (retargeted tk p m) = emitted m.
Proof.
  unfold retargeted. cbn [rootDir set_rootDir]. destruct (showDrives tk).
  - split; reflexivity.
  - destruct (index_framed (QDir.path (QDir_new tk (longNewPath tk p)))
                (set_rootDir Rest (QDir_new tk (longNewPath tk p)) m)) as (Hd & _ & He).
    split; [exact Hd | exact He].
Qed.

(** What a call with a path other than the current root leaves behind. *)
Lemma setRootPath_effect (p : QString) (m : Model Rest) :
  QDir.path (rootDir m) <> longNewPath tk p ->
  emitted (exec (setRootPath tk p) m)
    = (emitted m ++ [rootPathChanged (longNewPath tk p)])%list
  /\ forceSort (exec (setRootPath tk p) m) = true
  /\ rootDir (exec (setRootPath tk p) m) =
       (if showDrives tk
        then QDir_setPath tk "" (QDir_new tk (longNewPath tk p))
        else QDir_new tk (longNewPath tk p)).
Proof.
  intros H.
  set (m2 := retargeted tk p m).
  set (m3 := exec (fetchMore tk (newRootIndex tk p m)) m2).
  set (m4 := exec (emit Rest (rootPathChanged (longNewPath tk p))) m3).
  set (m5 := set_forceSort Rest true m4).
  assert (E : exec (setRootPath tk p) m = exec (delayedSort tk) m5)
    by (unfold exec at 1; rewrite (setRootPath_other p m H); reflexivity).
  rewrite E.
  destruct (delayedSort_framed m5) as (Hd6 & Hf6 & He6).
  destruct (fetchMore_framed (newRootIndex tk p m) m2) as (Hd3 & _ & He3).
  destruct (retargeted_frame p m) as (Hd2 & He2).
  fold m2 in Hd2, He2. fold m3 in Hd3, He3.
  rewrite Hd6, Hf6, He6. subst m5 m4. cbn.
  rewrite He3, He2, Hd3, Hd2. repeat split.
Qed.

Lemma app_singleton_neq {A} (l : list A) (a : A) : (l ++ [a])%list <> l.
Proof.
  intros H. apply (f_equal (@List.length A)) in H.
  rewrite List.length_app in H. cbn in H. lia.
Qed.

Lemma setRootPath_changes (p : QString) (m : Model Rest) :
  QDir.path (rootDir m) <> longNewPath tk p ->
  exec (setRootPath tk p) m <> m.
Proof.
  intros H E. destruct (setRootPath_effect p m H) as (He & _).
  rewrite E in He. symmetry in He. exact (app_singleton_neq _ _ He).
Qed.

Lemma count_after_emit (p : QString) (m : Model Rest) :
  QDir.path (rootDir m) <> longNewPath tk p ->
  count_rootPathChanged (exec (setRootPath tk p) m) = S (count_rootPathChanged m).
Proof.
  intros H. unfold count_rootPathChanged.
  destruct (setRootPath_effect p m H) as (He & _). rewrite He.
  rewrite List.filter_app, List.length_app. cbn. lia.
Qed.

End ExcerptFacts.

(** ** The reference toolkit satisfies the helper assumptions *)

Lemma reference_index_lookup (drives : bool) (q : QString) :
  lookup (d_index (Reference.toolkit drives) q).
Proof. intros m. reflexivity. Qed.

Lemma reference_fetchMore_framed (drives : bool) (i : QModelIndex) :
  framed (fetchMore (Reference.toolkit drives) i).
Proof. intros m. repeat split. Qed.

Lemma reference_delayedSort_framed (drives : bool) :
  framed (delayedSort (Reference.toolkit drives)).
Proof. intros m. repeat split. Qed.

(** The toolkit's [QDir] keeps "/tmp" as it is and shortens "/tmp/". *)
Example reference_kept :
  QDir.path (Reference.newDir "/tmp") = "/tmp"
  /\ QDir.path (Reference.newDir "/tmp/") = "/tmp"
  /\ QDir.path (Reference.newDir "") = "."
  /\ QDir.path (Reference.setPath "" (Reference.newDir "/tmp")) = "".
Proof. repeat split. Qed.

(** The normalization where [Q_OS_WIN] is set without [Q_OS_WIN32], and
    where it is not set. *)
Example longNewPath_by_platform :
  QDir.fromNativeSeparators "C:\Users\me" = "C:/Users/me"
  /\ longNewPath (Reference.toolkit false) "/tmp/" = "/tmp/".
Proof. split; reflexivity. Qed.

(** ** C9 *)

(** C9. [rootDirectory()] is an observer: the [QDir] it returns has path
    [rootPath()], name filters [nameFilters()] and entry filter [filter()],
    so it is the directory made of exactly these three values, and the call
    leaves the model as it was. *)
Theorem rootDirectory_observer {Rest : Type} (tk : Toolkit Rest) (m : Model Rest) :
  QDir.path (eval (rootDirectory tk) m) = eval rootPath m
  /\ QDir.nameFilters (eval (rootDirectory tk) m) = nameFilters tk m
  /\ QDir.filter (eval (rootDirectory tk) m) = filter tk m
  /\ eval (rootDirectory tk) m
       = QDir.Build (eval rootPath m) (nameFilters tk m) (filter tk m)
  /\ exec (rootDirectory tk) m = m.
Proof.
  unfold eval, exec. rewrite rootDirectory_run, rootPath_run. cbn.
  repeat split.
Qed.

(** ** C4 *)

(** C4, as stated, fails on two consecutive calls with a path that [QDir]
    does not keep verbatim.  From root "/home", [setRootPath("/tmp/")] leaves
    a root directory whose path is "/tmp"; the second [setRootPath("/tmp/")]
    compares "/tmp" with "/tmp/", takes the long path again, emits
    [rootPathChanged("/tmp/")] a second time and changes the state. *)
Lemma setRootPath_twice_counterexample :
  emitted (exec (setRootPath (Reference.toolkit false) "/tmp/")
             (Reference.modelAt "/home"))
    = [rootPathChanged "/tmp/"]
  /\ emitted (exec (setRootPath (Reference.toolkit false) "/tmp/")
                (exec (setRootPath (Reference.toolkit false) "/tmp/")
                   (Reference.modelAt "/home")))
       = [rootPathChanged "/tmp/"; rootPathChanged "/tmp/"]
  /\ exec (setRootPath (Reference.toolkit false) "/tmp/")
       (exec (setRootPath (Reference.toolkit false) "/tmp/")
          (Reference.modelAt "/home"))
     <> exec (setRootPath (Reference.toolkit false) "/tmp/")
          (Reference.modelAt "/home").
Proof.
  split; [reflexivity | split; [reflexivity | ]].
  intros E. apply (f_equal (fun m => List.length (emitted m))) in E.
  vm_compute in E. discriminate E.
Qed.

(** C4, amended.  When the normalized path equals the path of the current
    root directory, [setRootPath] is the call [d->index(rootPath())] and
    nothing else; with [d->index] a lookup it returns that index, leaves
    every component of the state unchanged and emits nothing.  Of two
    consecutive calls with the same path the second is such a no-op when
    [showDrives] is false and [QDir] keeps the normalized path as given. *)
Theorem setRootPath_current_root {Rest : Type} (tk : Toolkit Rest)
    (p : QString) (m : Model Rest) :
  (forall q, lookup (d_index tk q)) ->
  (QDir.path (rootDir m) = longNewPath tk p ->
     setRootPath tk p m = d_index tk (eval rootPath m) m
     /\ eval (setRootPath tk p) m = eval (d_index tk (eval rootPath m)) m
     /\ exec (setRootPath tk p) m = m
     /\ emitted (exec (setRootPath tk p) m) = emitted m)
  /\ ((forall i, framed (fetchMore tk i)) ->
      framed (delayedSort tk) ->
      showDrives tk = false ->
      QDir.path (QDir_new tk (longNewPath tk p)) = longNewPath tk p ->
      exec (setRootPath tk p) (exec (setRootPath tk p) m) = exec (setRootPath tk p) m
      /\ emitted (exec (setRootPath tk p) (exec (setRootPath tk p) m))
           = emitted (exec (setRootPath tk p) m)).
Proof.
  intros Hidx.
  assert (same : forall m0, QDir.path (rootDir m0) = longNewPath tk p ->
                 exec (setRootPath tk p) m0 = m0).
  { intros m0 H. unfold exec. rewrite (setRootPath_same tk p m0 H). apply Hidx. }
  split.
  - intros H. split; [| split; [| split]].
    + rewrite (setRootPath_same tk p m H). reflexivity.
    + unfold eval. rewrite (setRootPath_same tk p m H). reflexivity.
    + exact (same m H).
    + rewrite (same m H). reflexivity.
  - intros Hfetch Hsort Hdrives Hkept.
    assert (again : exec (setRootPath tk p) (exec (setRootPath tk p) m)
                    = exec (setRootPath tk p) m).
    { destruct (String.eqb_spec (QDir.path (rootDir m)) (longNewPath tk p)) as [E | N].
      - rewrite (same m E). exact (same m E).
      - apply same.
        destruct (setRootPath_effect tk (fun q => lookup_framed _ (Hidx q)) Hfetch Hsort p m N)
          as (_ & _ & Hd).
        rewrite Hd, Hdrives. exact Hkept. }
    split; [exact again | rewrite again; reflexivity].
Qed.

Lemma setRootPath_current_root_witness :
  (forall q, lookup (d_index (Reference.toolkit false) q))
  /\ QDir.path (rootDir (Reference.modelAt "/tmp"))
       = longNewPath (Reference.toolkit false) "/tmp"
  /\ exec (setRootPath (Reference.toolkit false) "/tmp") (Reference.modelAt "/tmp")
       = Reference.modelAt "/tmp"
  /\ showDrives (Reference.toolkit false) = false
  /\ QDir.path (QDir_new (Reference.toolkit false)
                  (longNewPath (Reference.toolkit false) "/tmp"))
       = longNewPath (Reference.toolkit false) "/tmp"
  /\ exec (setRootPath (Reference.toolkit false) "/tmp")
        (exec (setRootPath (Reference.toolkit false) "/tmp") (Reference.modelAt "/home"))
       = exec (setRootPath (Reference.toolkit false) "/tmp") (Reference.modelAt "/home").
Proof.
  split; [intros q m; reflexivity |].
  split; [reflexivity |].
  split.
  - destruct (setRootPath_current_root (Reference.toolkit false) "/tmp"
                (Reference.modelAt "/tmp") (fun q m => eq_refl)) as [H _].
    destruct (H eq_refl) as (_ & _ & E & _). exact E.
  - split; [reflexivity |]. split; [reflexivity |].
    destruct (setRootPath_current_root (Reference.toolkit false) "/tmp"
                (Reference.modelAt "/home") (fun q m => eq_refl)) as [_ H].
    destruct (H (fun i m => conj eq_refl (conj eq_refl eq_refl))
                (fun m => conj eq_refl (conj eq_refl eq_refl))
                eq_refl eq_refl) as [E _].
    exact E.
Defined.

(** ** C5 *)

(** C5, as stated, fails where [showDrives] holds.  From root "/home",
    [setRootPath("")] first assigns [QDir("")], whose path is ".", and then
    runs [d->rootDir.setPath("")]: the root directory is not [QDir("")],
    [rootPath()] returns "" and not ".", and the returned index is the
    invalid one. *)
Lemma setRootPath_showDrives_counterexample :
  QDir.path (rootDir (Reference.modelAt "/home"))
    <> longNewPath (Reference.toolkit true) ""
  /\ rootDir (exec (setRootPath (Reference.toolkit true) "") (Reference.modelAt "/home"))
     <> QDir_new (Reference.toolkit true) (longNewPath (Reference.toolkit true) "")
  /\ eval rootPath
       (exec (setRootPath (Reference.toolkit true) "") (Reference.modelAt "/home")) = ""
  /\ QDir.path (QDir_new (Reference.toolkit true) (longNewPath (Reference.toolkit true) ""))
     = ".".
Proof.
  split; [discriminate |].
  split; [| split; reflexivity].
  intros E. apply (f_equal QDir.path) in E. discriminate E.
Qed.

(** C5, amended.  With the helpers [d->index], [fetchMore] and
    [delayedSort] leaving [rootDir], [forceSort] and the emissions alone, a
    call whose normalized path differs from the current root's path emits
    [rootPathChanged] exactly once, with the normalized path, and sets
    [forceSort].  When [showDrives] is false the root directory becomes
    [QDir] of the normalized path and [rootPath()] returns that [QDir]'s
    path, which is [p] only if [QDir] keeps [p]; when [showDrives] is true
    the root directory is that [QDir] after [setPath("")] and the returned
    index is the invalid one. *)
Theorem setRootPath_new_root {Rest : Type} (tk : Toolkit Rest)
    (p : QString) (m : Model Rest) :
  (forall q, framed (d_index tk q)) ->
  (forall i, framed (fetchMore tk i)) ->
  framed (delayedSort tk) ->
  QDir.path (rootDir m) <> longNewPath tk p ->
  emitted (exec (setRootPath tk p) m)
    = (emitted m ++ [rootPathChanged (longNewPath tk p)])%list
  /\ count_rootPathChanged (exec (setRootPath tk p) m) = S (count_rootPathChanged m)
  /\ forceSort (exec (setRootPath tk p) m) = true
  /\ (showDrives tk = false ->
      rootDir (exec (setRootPath tk p) m) = QDir_new tk (longNewPath tk p)
      /\ eval rootPath (exec (setRootPath tk p) m)
         = QDir.path (QDir_new tk (longNewPath tk p))
      /\ (eval rootPath (exec (setRootPath tk p) m) = p
          <-> QDir.path (QDir_new tk (longNewPath tk p)) = p))
  /\ (showDrives tk = true ->
      rootDir (exec (setRootPath tk p) m)
        = QDir_setPath tk "" (QDir_new tk (longNewPath tk p))
      /\ eval (setRootPath tk p) m = invalidIndex).
Proof.
  intros Hidx Hfetch Hsort Hne.
  destruct (setRootPath_effect tk Hidx Hfetch Hsort p m Hne) as (He & Hf & Hd).
  split; [exact He |].
  split; [exact (count_after_emit tk Hidx Hfetch Hsort p m Hne) |].
  split; [exact Hf |].
  split.
  - intros Hdrives. rewrite Hdrives in Hd.
    assert (Hp : eval rootPath (exec (setRootPath tk p) m)
                 = QDir.path (QDir_new tk (longNewPath tk p))).
    { unfold eval. rewrite rootPath_run. cbn [fst]. rewrite Hd. reflexivity. }
    split; [exact Hd | split; [exact Hp |]].
    rewrite Hp. split; intros H; exact H.
  - intros Hdrives. rewrite Hdrives in Hd. split; [exact Hd |].
    unfold eval. rewrite (setRootPath_other tk p m Hne). cbn [fst].
    unfold newRootIndex. rewrite Hdrives. reflexivity.
Qed.

Lemma setRootPath_new_root_witness :
  QDir.path (rootDir (Reference.modelAt "/home"))
    <> longNewPath (Reference.toolkit false) "/tmp/"
  /\ emitted (exec (setRootPath (Reference.toolkit false) "/tmp/")
                (Reference.modelAt "/home"))
     = (emitted (Reference.modelAt "/home")
          ++ [rootPathChanged (longNewPath (Reference.toolkit false) "/tmp/")])%list
  /\ forceSort (exec (setRootPath (Reference.toolkit false) "/tmp/")
                  (Reference.modelAt "/home")) = true
  /\ eval rootPath (exec (setRootPath (Reference.toolkit false) "/tmp/")
                      (Reference.modelAt "/home"))
     = QDir.path (QDir_new (Reference.toolkit false)
                    (longNewPath (Reference.toolkit false) "/tmp/")).
Proof.
  assert (Hne : QDir.path (rootDir (Reference.modelAt "/home"))
                <> longNewPath (Reference.toolkit false) "/tmp/")
    by (intros E; discriminate E).
  destruct (setRootPath_new_root (Reference.toolkit false) "/tmp/"
              (Reference.modelAt "/home")
              (fun q m => conj eq_refl (conj eq_refl eq_refl))
              (fun i m => conj eq_refl (conj eq_refl eq_refl))
              (fun m => conj eq_refl (conj eq_refl eq_refl))
              Hne) as (He & _ & Hf & Hoff & _).
  destruct (Hoff eq_refl) as (_ & Hp & _).
  exact (conj Hne (conj He (conj Hf Hp))).
Defined.

(** ** C1 *)

(** C1, as stated, fails for [setRootPath]: from root "/home",
    [setRootPath("/tmp")] replaces the root directory, sets [forceSort] and
    emits [rootPathChanged("/tmp")]. *)
Lemma setRootPath_not_a_stub_counterexample :
  invoke (Reference.toolkit false) (call_setRootPath "/tmp") (Reference.modelAt "/home")
    <> Reference.modelAt "/home"
  /\ emitted (invoke (Reference.toolkit false) (call_setRootPath "/tmp")
                (Reference.modelAt "/home"))
     = [rootPathChanged "/tmp"]
  /\ QDir.path (rootDir (invoke (Reference.toolkit false) (call_setRootPath "/tmp")
                           (Reference.modelAt "/home")))
     = "/tmp"
  /\ forceSort (invoke (Reference.toolkit false) (call_setRootPath "/tmp")
                  (Reference.modelAt "/home"))
     = true
  /\ forceSort (Reference.modelAt "/home") = false.
Proof.
  split; [| repeat split].
  intros E. apply (f_equal (fun m => forceSort m)) in E. discriminate E.
Qed.

(** C1, amended.  The file defines two constructors, the destructor,
    [setRootPath], [rootPath] and [rootDirectory] and nothing else.
    [rootPath] and [rootDirectory] neither change the model nor emit.
    [setRootPath] does model work: it leaves the model unchanged only when
    the normalized path is the current root's (with [d->index] a lookup);
    otherwise, with framed helpers, it changes the state, sets [forceSort]
    and emits [rootPathChanged] with the normalized path. *)
Theorem excerpt_methods {Rest : Type} (tk : Toolkit Rest) (m : Model Rest) :
  map Cxx.fn_name (Cxx.tu_functions qfilesystemmodel_cpp.unit)
    = ["QFileSystemModel"; "QFileSystemModel"; "~QFileSystemModel";
       "setRootPath"; "rootPath"; "rootDirectory"]
  /\ invoke tk call_rootPath m = m
  /\ invoke tk call_rootDirectory m = m
  /\ (forall p,
        (forall q, lookup (d_index tk q)) ->
        QDir.path (rootDir m) = longNewPath tk p ->
        invoke tk (call_setRootPath p) m = m)
  /\ (forall p,
        (forall q, framed (d_index tk q)) ->
        (forall i, framed (fetchMore tk i)) ->
        framed (delayedSort tk) ->
        QDir.path (rootDir m) <> longNewPath tk p ->
        invoke tk (call_setRootPath p) m <> m
        /\ forceSort (invoke tk (call_setRootPath p) m) = true
        /\ emitted (invoke tk (call_setRootPath p) m)
           = (emitted m ++ [rootPathChanged (longNewPath tk p)])%list).
Proof.
  split; [reflexivity |].
  split; [reflexivity |].
  split; [reflexivity |].
  split.
  - intros p Hidx H. cbn [invoke]. unfold exec.
    rewrite (setRootPath_same tk p m H). apply Hidx.
  - intros p Hidx Hfetch Hsort Hne. cbn [invoke].
    destruct (setRootPath_effect tk Hidx Hfetch Hsort p m Hne) as (He & Hf & _).
    split; [exact (setRootPath_changes tk Hidx Hfetch Hsort p m Hne) |].
    split; [exact Hf | exact He].
Qed.

Lemma excerpt_methods_witness :
  invoke (Reference.toolkit false) call_rootPath (Reference.modelAt "/home")
    = Reference.modelAt "/home"
  /\ invoke (Reference.toolkit false) call_rootDirectory (Reference.modelAt "/home")
     = Reference.modelAt "/home"
  /\ QDir.path (rootDir (Reference.modelAt "/home"))
     = longNewPath (Reference.toolkit false) "/home"
  /\ invoke (Reference.toolkit false) (call_setRootPath "/home") (Reference.modelAt "/home")
     = Reference.modelAt "/home"
  /\ QDir.path (rootDir (Reference.modelAt "/home"))
     <> longNewPath (Reference.toolkit false) "/tmp"
  /\ invoke (Reference.toolkit false) (call_setRootPath "/tmp") (Reference.modelAt "/home")
     <> Reference.modelAt "/home".
Proof.
  assert (Hne : QDir.path (rootDir (Reference.modelAt "/home"))
                <> longNewPath (Reference.toolkit false) "/tmp")
    by (intros E; discriminate E).
  destruct (excerpt_methods (Reference.toolkit false) (Reference.modelAt "/home"))
    as (_ & Hpath & Hdir & Hsame & Hother).
  destruct (Hother "/tmp"
              (fun q m => conj eq_refl (conj eq_refl eq_refl))
              (fun i m => conj eq_refl (conj eq_refl eq_refl))
              (fun m => conj eq_refl (conj eq_refl eq_refl))
              Hne) as (Hchg & _).
  exact (conj Hpath (conj Hdir (conj eq_refl
          (conj (Hsame "/home" (fun q m => eq_refl) eq_refl) (conj Hne Hchg))))).
Defined.

(** * Properties of the test translation units *)

Section TestFacts.
Import Cxx Material.

(** A boolean check that holds on every element of a list holds on each. *)
Lemma checked {A} (chk : A -> bool) (l : list A) (x : A) :
  forallb chk l = true -> In x l -> chk x = true.
Proof.
  intros H Hin. rewrite forallb_forall in H. exact (H x Hin).
Qed.

(** The checks see what they are meant to see: the excerpt, unlike the
    tests, includes a private header and reads data members, and its
    [setRootPath] returns a value. *)
Example excerpt_fails_the_test_checks :
  uses_toolkit_as_is qfilesystemmodel_cpp.unit = false
  /\ existsb is_private_header (tu_includes qfilesystemmodel_cpp.unit) = true
  /\ existsb is_field (expressions qfilesystemmodel_cpp.setRootPath) = true
  /\ reports_by_macros_only qfilesystemmodel_cpp.setRootPath = false
  /\ is_threading "QThread" = true
  /\ is_threading "QMutexLocker" = true
  /\ is_threading "moveToThread" = true.
Proof. repeat split. Qed.

(** How many test functions assert on each of the three signals. *)
Example assertions_per_signal :
  List.length test_functions = 58%nat
  /\ List.length (List.filter (asserts_signal ["directoryLoaded"]) test_functions) = 17%nat
  /\ List.length (List.filter (asserts_signal ["fileChanged"]) test_functions) = 2%nat
  /\ List.length (List.filter (asserts_signal ["rootPathChanged"]) test_functions) = 1%nat.
Proof. repeat split. Qed.

(** The operations the tests invoke on the six entity types; that each is
    a public member is for the toolkit's headers to say. *)
Example operations_invoked :
  map (fun ty => (ty, operations_on ty)) entity_types =
    [ ("QFileSystemWatcher",
       ["addPaths"; "removePath"; "removePaths"; "files"; "directories"; "addPath"]);
      ("QFileSystemModel",
       ["fileName"; "rootPath"; "remove"; "mkdir"; "filePath"; "setNameFilters";
        "nameFilters"; "sort"; "sortRole"; "filter"; "caseSensitivity"; "rowCount";
        "setFilter"; "fileInfo"; "setResolveSymlinks"; "resolveSymlinks";
        "permissions"; "setIconProvider"; "iconProvider"; "index"; "data";
        "setRootPath"]);
      ("QModelIndex", ["isValid"]);
      ("QFileInfo",
       ["absoluteFilePath"; "size"; "isDir"; "isFile"; "isHidden"; "exists";
        "fileName"; "isSymLink"]);
      ("QDir", ["exists"; "mkdir"; "homePath"; "tempPath"]);
      ("QFileDialog",
       ["getOpenFileName"; "getSaveFileName"; "getExistingDirectory"; "directory";
        "selectFile"; "setDirectory"; "selectedFiles"; "setNameFilter";
        "setNameFilters"; "nameFilters"; "setViewMode"; "viewMode"; "setFileMode";
        "fileMode"; "setAcceptMode"; "acceptMode"; "options"; "setOption";
        "setOptions"; "testOption"; "setSidebarUrls"; "sidebarUrls"; "setHistory";
        "history"; "setDefaultSuffix"; "defaultSuffix"; "setMimeTypeFilters";
        "mimeTypeFilters"]) ].
Proof. reflexivity. Qed.

(** Every spy listens to a toolkit object. *)
Example spies_listen_to_the_toolkit :
  spy_senders = ["QFileSystemWatcher"; "QFileSystemModel"].
Proof. reflexivity. Qed.

(** Assertions on [directoryLoaded] and [fileChanged] spies are awaited in
    every test function. *)
Lemma awaited_everywhere :
  forallb (awaited ["directoryLoaded"; "fileChanged"]) test_functions = true.
Proof. reflexivity. Qed.

(** ** C2 *)

(** C2, as stated, fails on [tst_QFileSystemModel::setRootPath]: it asserts
    [rootPathChangedSpy.count() == 1] right after the call, and no
    [QTRY_VERIFY], [wait] or [qWait] occurs anywhere in the function. *)
Lemma setRootPath_test_counterexample :
  In tst_QFileSystemModel.setRootPath test_functions
  /\ asserts_signal ["rootPathChanged"] tst_QFileSystemModel.setRootPath = true
  /\ has_wait tst_QFileSystemModel.setRootPath = false
  /\ awaited async_signals tst_QFileSystemModel.setRootPath = false.
Proof.
  split; [| repeat split].
  apply in_flat_map. exists tst_QFileSystemModel.unit.
  split; cbn; tauto.
Qed.

(** C2, amended.  In every test function, each assertion on a
    [directoryLoaded] or [fileChanged] spy has a polling or timeout-bounded
    wait ([QTRY_VERIFY], [QSignalSpy::wait], [QTest::qWait]) at or before
    it.  [rootPathChanged] is asserted in one test only,
    [tst_QFileSystemModel::setRootPath], and there without any wait. *)
Theorem loaded_and_changed_awaited (f : Function) :
  In f test_functions ->
  awaited ["directoryLoaded"; "fileChanged"] f = true
  /\ (asserts_signal ["rootPathChanged"] f = true ->
      qualified f = "tst_QFileSystemModel::setRootPath" /\ has_wait f = false).
Proof.
  intros Hin.
  pose (chk := fun f =>
    awaited ["directoryLoaded"; "fileChanged"] f
    && (negb (asserts_signal ["rootPathChanged"] f)
        || ((qualified f =? "tst_QFileSystemModel::setRootPath") && negb (has_wait f)))).
  assert (H : chk f = true) by (apply (checked chk test_functions); [reflexivity | exact Hin]).
  unfold chk in H. apply andb_true_iff in H. destruct H as [Ha Hr].
  split; [exact Ha |].
  intros Hs. rewrite Hs in Hr. cbn in Hr.
  apply andb_true_iff in Hr. destruct Hr as [Hq Hw].
  split; [apply String.eqb_eq; exact Hq | apply negb_true_iff; exact Hw].
Qed.

Lemma loaded_and_changed_awaited_witness :
  In tst_QFileSystemWatcher.fileChanged test_functions
  /\ awaited ["directoryLoaded"; "fileChanged"] tst_QFileSystemWatcher.fileChanged = true.
Proof.
  assert (Hin : In tst_QFileSystemWatcher.fileChanged test_functions).
  { apply in_flat_map. exists tst_QFileSystemWatcher.unit. split; cbn; tauto. }
  exact (conj Hin (proj1 (loaded_and_changed_awaited tst_QFileSystemWatcher.fileChanged Hin))).
Defined.

(** ** C3 *)

(** [tst_qfileinfogatherer.cpp] spells [QFileInfoGatherer] in its
    fixture's name only: it names no operation of that class. *)
Example gatherer_never_named :
  exercises tst_QFileInfoGatherer.unit "QFileInfoGatherer" = false
  /\ forallb (fun n => negb (occurs "QFileInfoGatherer" n))
       (foreign_names tst_QFileInfoGatherer.unit) = true.
Proof. split; reflexivity. Qed.




(** ** C6 *)

(** C6. Every test function reports only through [QVERIFY], [QCOMPARE] and
    [QTRY_VERIFY]: it returns [void], uses no other statement macro, returns
    no value, throws nothing and calls no free function; and the only class
    its translation unit defines is the fixture deriving from [QObject]. *)
Theorem tests_report_by_macros (tu : TranslationUnit) (f : Function) :
  In tu test_units ->
  In f (tu_functions tu) ->
  reports_by_macros_only f = true
  /\ fn_ret f = "void"
  /\ (forall n, In n (macros f) -> In n ["QVERIFY"; "QCOMPARE"; "QTRY_VERIFY"])
  /\ (forall s, In s (statements f) -> is_return_value s = false /\ is_throw s = false)
  /\ map cd_bases (tu_classes tu) = [["QObject"]]
  /\ map (fun c => Some (cd_name c)) (tu_classes tu) = [tu_main tu].
Proof.
  intros Htu Hf.
  pose (chk := fun tu =>
    forallb reports_by_macros_only (tu_functions tu)
    && forallb (fun b => forallb (String.eqb "QObject") b && (List.length b =? 1)%nat)
         (map cd_bases (tu_classes tu))
    && (List.length (tu_classes tu) =? 1)%nat
    && forallb (fun c => match tu_main tu with
                         | Some n => cd_name c =? n
                         | None => false
                         end) (tu_classes tu)).
  assert (H : chk tu = true) by (apply (checked chk test_units); [reflexivity | exact Htu]).
  unfold chk in H. repeat (apply andb_true_iff in H; destruct H as [H ?]).
  assert (R : reports_by_macros_only f = true) by exact (checked _ _ f H Hf).
  split; [exact R |].
  unfold reports_by_macros_only in R.
  repeat (apply andb_true_iff in R; destruct R as [R ?]).
  split; [apply String.eqb_eq; exact R |].
  split.
  { intros n Hn. match goal with Hm : forallb _ (macros f) = true |- _ =>
      apply (checked _ _ n Hm) in Hn end.
    unfold member in Hn. apply existsb_exists in Hn. destruct Hn as (x & Hx & E).
    apply String.eqb_eq in E. subst x. exact Hx. }
  split.
  { intros s Hs. split.
    - destruct (is_return_value s) eqn:E; [| reflexivity].
      match goal with Hr : negb (existsb is_return_value _) = true |- _ =>
        apply negb_true_iff in Hr;
        assert (X : existsb is_return_value (statements f) = true)
          by (apply existsb_exists; exists s; split; assumption);
        rewrite X in Hr; discriminate Hr end.
    - destruct (is_throw s) eqn:E; [| reflexivity].
      match goal with Hr : negb (existsb is_throw _) = true |- _ =>
        apply negb_true_iff in Hr;
        assert (X : existsb is_throw (statements f) = true)
          by (apply existsb_exists; exists s; split; assumption);
        rewrite X in Hr; discriminate Hr end. }
  clear - Htu.
  cbn in Htu. destruct Htu as [E | [E | [E | [E | []]]]]; subst tu; split; reflexivity.
Qed.

Lemma tests_report_by_macros_witness :
  In tst_QFileDialog.unit test_units
  /\ In tst_QFileDialog.getOpenFileName (tu_functions tst_QFileDialog.unit)
  /\ reports_by_macros_only tst_QFileDialog.getOpenFileName = true.
Proof.
  assert (Htu : In tst_QFileDialog.unit test_units) by (cbn; tauto).
  assert (Hf : In tst_QFileDialog.getOpenFileName (tu_functions tst_QFileDialog.unit))
    by (cbn; tauto).
  exact (conj Htu (conj Hf
    (proj1 (tests_report_by_macros tst_QFileDialog.unit tst_QFileDialog.getOpenFileName
              Htu Hf)))).
Defined.

(** ** C7 *)

(** C7. None of the five translation units names a thread, a lock, a
    semaphore, a wait condition, an atomic, a future or a cross-thread
    invocation: they create no thread and synchronize with none.  The tests
    meet the toolkit's asynchronous signals through spies only: they read a
    spy only inside the assertion macros, and each assertion on a
    [directoryLoaded] or [fileChanged] spy has a polling or timeout wait
    at or before it. *)
Theorem no_threads_of_their_own (tu : TranslationUnit) :
  In tu all_units ->
  thread_free tu = true
  /\ (forall n, In n (names tu) -> is_threading n = false)
  /\ (In tu test_units ->
      Forall (fun f => spies_read_in_assertions f = true
                       /\ awaited ["directoryLoaded"; "fileChanged"] f = true)
        (tu_functions tu)).
Proof.
  intros Htu.
  assert (T : thread_free tu = true)
    by (apply (checked thread_free all_units); [reflexivity | exact Htu]).
  split; [exact T |].
  split.
  - intros n Hn. unfold thread_free in T. apply negb_true_iff in T.
    destruct (is_threading n) eqn:E; [| reflexivity].
    assert (X : existsb is_threading (names tu) = true)
      by (apply existsb_exists; exists n; split; assumption).
    rewrite X in T. discriminate T.
  - intros Ht. apply Forall_forall. intros f Hf.
    assert (H : forallb spies_read_in_assertions (tu_functions tu) = true)
      by (apply (checked (fun tu => forallb spies_read_in_assertions (tu_functions tu))
                   test_units); [reflexivity | exact Ht]).
    split; [exact (checked _ _ f H Hf) |].
    apply (checked _ _ f awaited_everywhere).
    apply in_flat_map. exists tu. split; assumption.
Qed.

Lemma no_threads_of_their_own_witness :
  In tst_QFileInfoGatherer.unit all_units
  /\ thread_free tst_QFileInfoGatherer.unit = true
  /\ In tst_QFileInfoGatherer.unit test_units
  /\ spies_read_in_assertions tst_QFileInfoGatherer.fileWatching = true.
Proof.
  assert (Hall : In tst_QFileInfoGatherer.unit all_units) by (cbn; tauto).
  assert (Htest : In tst_QFileInfoGatherer.unit test_units) by (cbn; tauto).
  destruct (no_threads_of_their_own tst_QFileInfoGatherer.unit Hall) as (T & _ & _).
  exact (conj Hall (conj T (conj Htest eq_refl))).
Defined.

(** ** X14 *)



End TestFacts.

(** * Further properties of the excerpt *)

Section CallFacts.

Context {Rest : Type} (tk : Toolkit Rest).

Hypothesis index_framed : forall q, framed (d_index tk q).
Hypothesis fetchMore_framed : forall i, framed (fetchMore tk i).
Hypothesis delayedSort_framed : framed (delayedSort tk).

(** One call, both ways through it. *)
Lemma setRootPath_step (p : QString) (m : Model Rest) :
  emitted (exec (setRootPath tk p) m)
    = (emitted m ++ (if QDir.path (rootDir m) =? longNewPath tk p
                     then []
                     else [rootPathChanged (longNewPath tk p)]))%list
  /\ forceSort (exec (setRootPath tk p) m)
     = forceSort m || negb (QDir.path (rootDir m) =? longNewPath tk p)
  /\ QDir.path (rootDir (exec (setRootPath tk p) m))
     = (if QDir.path (rootDir m) =? longNewPath tk p
        then QDir.path (rootDir m)
        else stored tk (longNewPath tk p)).
Proof.
  destruct (String.eqb_spec (QDir.path (rootDir m)) (longNewPath tk p)) as [E | N].
  - assert (X : exec (setRootPath tk p) m = exec (d_index tk (QDir.path (rootDir m))) m)
      by (unfold exec; rewrite (setRootPath_same tk p m E); reflexivity).
    destruct (index_framed (QDir.path (rootDir m)) m) as (Hd & Hf & He).
    rewrite X, Hd, Hf, He, List.app_nil_r, orb_false_r. repeat split.
  - destruct (setRootPath_effect tk index_framed fetchMore_framed delayedSort_framed p m N)
      as (He & Hf & Hd).
    rewrite He, Hf, Hd, orb_true_r. repeat split.
Qed.

(** A run of calls: the log, the root path and the flag at the end. *)
Lemma setRootPaths_run (ps : list QString) :
  forall m : Model Rest,
  emitted (setRootPaths tk ps m)
    = (emitted m ++ map rootPathChanged
         (announced tk (QDir.path (rootDir m)) (map (longNewPath tk) ps)))%list
  /\ QDir.path (rootDir (setRootPaths tk ps m))
     = settled tk (QDir.path (rootDir m)) (map (longNewPath tk) ps)
  /\ forceSort (setRootPaths tk ps m)
     = match announced tk (QDir.path (rootDir m)) (map (longNewPath tk) ps) with
       | [] => forceSort m
       | _ :: _ => true
       end.
Proof.
  induction ps as [| p ps IH]; intros m; cbn [setRootPaths map announced settled].
  - rewrite List.app_nil_r. repeat split.
  - destruct (setRootPath_step p m) as (He & Hf & Hd).
    destruct (IH (exec (setRootPath tk p) m)) as (IHe & IHd & IHf).
    rewrite IHe, IHd, IHf, He, Hd, Hf.
    destruct (QDir.path (rootDir m) =? longNewPath tk p); cbn [negb map].
    + rewrite List.app_nil_r, orb_false_r. repeat split.
    + rewrite <- List.app_assoc, orb_true_r. cbn [List.app].
      split; [reflexivity | split; [reflexivity |]].
      destruct (announced tk (stored tk (longNewPath tk p)) (map (longNewPath tk) ps));
        reflexivity.
Qed.

End CallFacts.

Lemma last_default {A} (l : list A) :
  forall a d d' : A, List.last (a :: l) d = List.last (a :: l) d'.
Proof.
  induction l as [| b l IH]; intros a d d'; [reflexivity |].
  change (List.last (b :: l) d = List.last (b :: l) d'). apply IH.
Qed.

Lemma last_cons {A} (l : list A) (a d : A) : List.last (a :: l) d = List.last l a.
Proof.
  destruct l as [| b l]; [reflexivity |].
  change (List.last (b :: l) d = List.last (b :: l) a). apply last_default.
Qed.

(** When every path is stored as given, only repeats are swallowed. *)
Lemma announced_verbatim {Rest : Type} (tk : Toolkit Rest) (qs : list QString) :
  (forall q, In q qs -> stored tk q = q) ->
  forall cur,
  announced tk cur qs = without_repeats cur qs
  /\ settled tk cur qs = List.last qs cur.
Proof.
  induction qs as [| q qs IH]; intros H cur; cbn [announced settled without_repeats].
  - split; reflexivity.
  - assert (Hq : stored tk q = q) by (apply H; left; reflexivity).
    assert (H' : forall q', In q' qs -> stored tk q' = q')
      by (intros q' Hin; apply H; right; exact Hin).
    destruct (String.eqb_spec cur q) as [E | N].
    + subst q. destruct (IH H' cur) as (Ha & Hs). split; [exact Ha |].
      rewrite Hs, last_cons. reflexivity.
    + rewrite Hq. destruct (IH H' q) as (Ha & Hs). split; [rewrite Ha; reflexivity |].
      rewrite Hs, last_cons. reflexivity.
Qed.

(** When the stored path is always empty, every non-empty path gets past. *)
Lemma announced_from_empty {Rest : Type} (tk : Toolkit Rest) (qs : list QString) :
  (forall q, stored tk q = "") ->
  (forall q, In q qs -> q <> "") ->
  announced tk "" qs = qs /\ settled tk "" qs = "".
Proof.
  intros Hs. induction qs as [| q qs IH]; intros H; cbn [announced settled].
  - split; reflexivity.
  - assert (N : ("" =? q) = false)
      by (apply String.eqb_neq; intros E; apply (H q); [left; reflexivity | symmetry; exact E]).
    rewrite N, Hs.
    destruct (IH (fun q' Hin => H q' (or_intror Hin))) as (Ha & Hd).
    rewrite Ha, Hd. split; reflexivity.
Qed.

Lemma fromNativeSeparators_fixed (s : QString) :
  has_backslash s = false -> QDir.fromNativeSeparators s = s.
Proof.
  unfold has_backslash. induction s as [| c s IH]; [reflexivity |].
  cbn [QDir.fromNativeSeparators list_ascii_of_string existsb].
  intros H. apply orb_false_iff in H. destruct H as [Hc Hs].
  rewrite (IH Hs). rewrite Ascii.eqb_sym in Hc. rewrite Hc. reflexivity.
Qed.

(** ** X1 *)

(** X1. With framed helpers, a call to [setRootPath] appends to the
    emission log exactly [rootPathChanged] with the normalized path when
    that path differs from the current root's, and nothing when it does
    not: earlier emissions are kept in order, no other signal is emitted,
    and the log is unchanged exactly when the paths are equal. *)
Theorem setRootPath_log {Rest : Type} (tk : Toolkit Rest) (p : QString) (m : Model Rest) :
  (forall q, framed (d_index tk q)) ->
  (forall i, framed (fetchMore tk i)) ->
  framed (delayedSort tk) ->
  emitted (exec (setRootPath tk p) m)
    = (emitted m ++ (if QDir.path (rootDir m) =? longNewPath tk p
                     then []
                     else [rootPathChanged (longNewPath tk p)]))%list
  /\ (emitted (exec (setRootPath tk p) m) = emitted m
      <-> QDir.path (rootDir m) = longNewPath tk p).
Proof.
  intros Hi Hf Hs.
  destruct (setRootPath_step tk Hi Hf Hs p m) as (He & _).
  split; [exact He |].
  rewrite He. destruct (String.eqb_spec (QDir.path (rootDir m)) (longNewPath tk p)) as [E | N].
  - rewrite List.app_nil_r. split; intros _; [exact E | reflexivity].
  - split; intros H; [exfalso; exact (app_singleton_neq _ _ H) | contradiction].
Qed.

Lemma setRootPath_log_witness :
  (forall q, framed (d_index (Reference.toolkit false) q))
  /\ emitted (exec (setRootPath (Reference.toolkit false) "/var")
                (exec (setRootPath (Reference.toolkit false) "/tmp")
                   (Reference.modelAt "/home")))
     = [rootPathChanged "/tmp"; rootPathChanged "/var"].
Proof.
  split; [intros q m; repeat split |].
  exact (proj1 (setRootPath_log (Reference.toolkit false) "/var"
                  (exec (setRootPath (Reference.toolkit false) "/tmp")
                     (Reference.modelAt "/home"))
                  (fun q m => conj eq_refl (conj eq_refl eq_refl))
                  (fun i m => conj eq_refl (conj eq_refl eq_refl))
                  (fun m => conj eq_refl (conj eq_refl eq_refl)))).
Defined.

(** ** X2 *)

(** X2. With framed helpers, no run of [setRootPath] calls clears
    [forceSort]: once set it stays set, and it is set at the end of a run
    as soon as one call of the run got past the comparison. *)
Theorem forceSort_sticky {Rest : Type} (tk : Toolkit Rest)
    (ps : list QString) (m : Model Rest) :
  (forall q, framed (d_index tk q)) ->
  (forall i, framed (fetchMore tk i)) ->
  framed (delayedSort tk) ->
  (forceSort m = true -> forceSort (setRootPaths tk ps m) = true)
  /\ (emitted (setRootPaths tk ps m) <> emitted m ->
      forceSort (setRootPaths tk ps m) = true).
Proof.
  intros Hi Hf Hs.
  destruct (setRootPaths_run tk Hi Hf Hs ps m) as (He & _ & Hfs).
  rewrite Hfs, He.
  destruct (announced tk (QDir.path (rootDir m)) (map (longNewPath tk) ps)).
  - split; [intros H; exact H |].
    intros H. exfalso. apply H. cbn. apply List.app_nil_r.
  - split; intros _; reflexivity.
Qed.

Lemma forceSort_sticky_witness :
  forceSort (Reference.modelAt "/home") = false
  /\ emitted (setRootPaths (Reference.toolkit false) ["/home"; "/tmp"; "/tmp"]
                (Reference.modelAt "/home"))
     <> emitted (Reference.modelAt "/home")
  /\ forceSort (setRootPaths (Reference.toolkit false) ["/home"; "/tmp"; "/tmp"]
                  (Reference.modelAt "/home")) = true.
Proof.
  assert (N : emitted (setRootPaths (Reference.toolkit false) ["/home"; "/tmp"; "/tmp"]
                         (Reference.modelAt "/home"))
              <> emitted (Reference.modelAt "/home"))
    by (intros E; discriminate E).
  exact (conj eq_refl (conj N
    (proj2 (forceSort_sticky (Reference.toolkit false) ["/home"; "/tmp"; "/tmp"]
              (Reference.modelAt "/home")
              (fun q m => conj eq_refl (conj eq_refl eq_refl))
              (fun i m => conj eq_refl (conj eq_refl eq_refl))
              (fun m => conj eq_refl (conj eq_refl eq_refl))) N))).
Defined.

(** ** X3 *)

(** X3. With framed helpers, the log of a run of calls is the old log
    followed by [rootPathChanged] for the normalized paths that differ from
    the root path standing when their call arrives, and the root path at
    the end is the one the last such call stored: the loop of calls is the
    pure function [announced] / [settled] of the normalized paths. *)
Theorem setRootPaths_log {Rest : Type} (tk : Toolkit Rest)
    (ps : list QString) (m : Model Rest) :
  (forall q, framed (d_index tk q)) ->
  (forall i, framed (fetchMore tk i)) ->
  framed (delayedSort tk) ->
  emitted (setRootPaths tk ps m)
    = (emitted m ++ map rootPathChanged
         (announced tk (QDir.path (rootDir m)) (map (longNewPath tk) ps)))%list
  /\ eval rootPath (setRootPaths tk ps m)
     = settled tk (QDir.path (rootDir m)) (map (longNewPath tk) ps).
Proof.
  intros Hi Hf Hs.
  destruct (setRootPaths_run tk Hi Hf Hs ps m) as (He & Hd & _).
  split; [exact He | exact Hd].
Qed.

Lemma setRootPaths_log_witness :
  emitted (setRootPaths (Reference.toolkit false) ["/tmp/"; "/tmp/"; "/tmp"]
             (Reference.modelAt "/home"))
    = [rootPathChanged "/tmp/"; rootPathChanged "/tmp/"]
  /\ eval rootPath (setRootPaths (Reference.toolkit false) ["/tmp/"; "/tmp/"; "/tmp"]
                      (Reference.modelAt "/home"))
     = "/tmp".
Proof.
  exact (setRootPaths_log (Reference.toolkit false) ["/tmp/"; "/tmp/"; "/tmp"]
           (Reference.modelAt "/home")
           (fun q m => conj eq_refl (conj eq_refl eq_refl))
           (fun i m => conj eq_refl (conj eq_refl eq_refl))
           (fun m => conj eq_refl (conj eq_refl eq_refl))).
Defined.

(** ** X4 *)

(** X4. With framed helpers, [showDrives] false and every normalized path
    of the run kept by [QDir] as given, a run of calls announces each
    change once: the log grows by the normalized paths without those equal
    to their predecessor, and [rootPath()] ends at the last one. *)
Theorem setRootPaths_verbatim {Rest : Type} (tk : Toolkit Rest)
    (ps : list QString) (m : Model Rest) :
  (forall q, framed (d_index tk q)) ->
  (forall i, framed (fetchMore tk i)) ->
  framed (delayedSort tk) ->
  showDrives tk = false ->
  (forall p, In p ps ->
     QDir.path (QDir_new tk (longNewPath tk p)) = longNewPath tk p) ->
  emitted (setRootPaths tk ps m)
    = (emitted m ++ map rootPathChanged
         (without_repeats (QDir.path (rootDir m)) (map (longNewPath tk) ps)))%list
  /\ eval rootPath (setRootPaths tk ps m)
     = List.last (map (longNewPath tk) ps) (QDir.path (rootDir m)).
Proof.
  intros Hi Hf Hs Hdrives Hkept.
  destruct (setRootPaths_run tk Hi Hf Hs ps m) as (He & Hd & _).
  assert (Hst : forall q, In q (map (longNewPath tk) ps) -> stored tk q = q).
  { intros q Hq. apply in_map_iff in Hq. destruct Hq as (p & <- & Hp).
    unfold stored. rewrite Hdrives. exact (Hkept p Hp). }
  destruct (announced_verbatim tk _ Hst (QDir.path (rootDir m))) as (Ha & Hl).
  rewrite <- Ha, <- Hl. split; [exact He | exact Hd].
Qed.

Lemma setRootPaths_verbatim_witness :
  showDrives (Reference.toolkit false) = false
  /\ emitted (setRootPaths (Reference.toolkit false) ["/home"; "/tmp"; "/tmp"; "/home"]
                (Reference.modelAt "/home"))
     = [rootPathChanged "/tmp"; rootPathChanged "/home"]
  /\ eval rootPath (setRootPaths (Reference.toolkit false) ["/home"; "/tmp"; "/tmp"; "/home"]
                      (Reference.modelAt "/home"))
     = "/home".
Proof.
  split; [reflexivity |].
  apply (setRootPaths_verbatim (Reference.toolkit false) ["/home"; "/tmp"; "/tmp"; "/home"]
           (Reference.modelAt "/home")
           (fun q m => conj eq_refl (conj eq_refl eq_refl))
           (fun i m => conj eq_refl (conj eq_refl eq_refl))
           (fun m => conj eq_refl (conj eq_refl eq_refl))
           eq_refl).
  intros p [<- | [<- | [<- | [<- | []]]]]; reflexivity.
Defined.

(** ** X5 *)

(** X5. Under [showDrives], with framed helpers and [setPath("")] leaving
    an empty path, the model never settles on a non-empty path: from an
    empty root path every call with a non-empty normalized path emits
    [rootPathChanged], repeats included, and the root path is empty again
    afterwards. *)
Theorem setRootPaths_drives {Rest : Type} (tk : Toolkit Rest)
    (ps : list QString) (m : Model Rest) :
  (forall q, framed (d_index tk q)) ->
  (forall i, framed (fetchMore tk i)) ->
  framed (delayedSort tk) ->
  showDrives tk = true ->
  (forall d, QDir.path (QDir_setPath tk "" d) = "") ->
  QDir.path (rootDir m) = "" ->
  (forall p, In p ps -> longNewPath tk p <> "") ->
  emitted (setRootPaths tk ps m)
    = (emitted m ++ map (fun p => rootPathChanged (longNewPath tk p)) ps)%list
  /\ eval rootPath (setRootPaths tk ps m) = "".
Proof.
  intros Hi Hf Hs Hdrives Hempty Hcur Hne.
  destruct (setRootPaths_run tk Hi Hf Hs ps m) as (He & Hd & _).
  assert (Hst : forall q, stored tk q = "")
    by (intros q; unfold stored; rewrite Hdrives; apply Hempty).
  assert (Hq : forall q, In q (map (longNewPath tk) ps) -> q <> "").
  { intros q Hin. apply in_map_iff in Hin. destruct Hin as (p & <- & Hp). exact (Hne p Hp). }
  destruct (announced_from_empty tk _ Hst Hq) as (Ha & Hl).
  rewrite Hcur, Ha in He. rewrite Hcur, Hl in Hd.
  rewrite List.map_map in He. split; [exact He | exact Hd].
Qed.

Lemma setRootPaths_drives_witness :
  showDrives (Reference.toolkit true) = true
  /\ QDir.path (rootDir (Reference.modelAt "/")) <> ""
  /\ emitted (setRootPaths (Reference.toolkit true) ["/tmp"; "/tmp"; "/tmp"]
                (exec (setRootPath (Reference.toolkit true) "") (Reference.modelAt "/")))
     = [rootPathChanged ""; rootPathChanged "/tmp"; rootPathChanged "/tmp";
        rootPathChanged "/tmp"]
  /\ eval rootPath
       (setRootPaths (Reference.toolkit true) ["/tmp"; "/tmp"; "/tmp"]
          (exec (setRootPath (Reference.toolkit true) "") (Reference.modelAt "/")))
     = "".
Proof.
  split; [reflexivity |].
  split; [intros E; discriminate E |].
  apply (setRootPaths_drives (Reference.toolkit true) ["/tmp"; "/tmp"; "/tmp"]
           (exec (setRootPath (Reference.toolkit true) "") (Reference.modelAt "/"))
           (fun q m => conj eq_refl (conj eq_refl eq_refl))
           (fun i m => conj eq_refl (conj eq_refl eq_refl))
           (fun m => conj eq_refl (conj eq_refl eq_refl))
           eq_refl (fun d => eq_refl) eq_refl).
  intros p [<- | [<- | [<- | []]]] E; discriminate E.
Defined.

(** ** X6 *)

(** X6. Setting the root path to what [rootPath()] returns changes
    nothing: where no Windows macro is set, and where [Q_OS_WIN] is set
    without [Q_OS_WIN32] and the root path holds no backslash,
    [setRootPath(rootPath())] takes the early return, so with [d->index] a
    lookup the model is left as it was and the index of the root path is
    returned. *)
Theorem setRootPath_of_rootPath {Rest : Type} (tk : Toolkit Rest) (m : Model Rest) :
  (forall q, lookup (d_index tk q)) ->
  platform tk = NotWin
    \/ (platform tk = WinOther /\ has_backslash (eval rootPath m) = false) ->
  exec (setRootPath tk (eval rootPath m)) m = m
  /\ eval (setRootPath tk (eval rootPath m)) m = eval (d_index tk (eval rootPath m)) m.
Proof.
  intros Hidx Hp.
  assert (E : QDir.path (rootDir m) = longNewPath tk (eval rootPath m)).
  { unfold longNewPath, eval. rewrite rootPath_run. cbn [fst].
    destruct Hp as [-> | [-> Hb]]; [reflexivity |].
    unfold eval in Hb. rewrite rootPath_run in Hb. cbn [fst] in Hb.
    symmetry. exact (fromNativeSeparators_fixed _ Hb). }
  pose proof (setRootPath_same tk (eval rootPath m) m E) as S.
  split.
  - unfold exec. rewrite S. apply Hidx.
  - unfold eval at 1. rewrite S. reflexivity.
Qed.

Lemma setRootPath_of_rootPath_witness :
  (platform (Reference.toolkit false) = NotWin
   \/ (platform (Reference.toolkit false) = WinOther
       /\ has_backslash
            (eval rootPath
               (exec (setRootPath (Reference.toolkit false) "/tmp/")
                  (Reference.modelAt "/home"))) = false))
  /\ exec (setRootPath (Reference.toolkit false)
             (eval rootPath
                (exec (setRootPath (Reference.toolkit false) "/tmp/")
                   (Reference.modelAt "/home"))))
       (exec (setRootPath (Reference.toolkit false) "/tmp/") (Reference.modelAt "/home"))
     = exec (setRootPath (Reference.toolkit false) "/tmp/") (Reference.modelAt "/home").
Proof.
  split; [left; reflexivity |].
  exact (proj1 (setRootPath_of_rootPath (Reference.toolkit false)
                  (exec (setRootPath (Reference.toolkit false) "/tmp/")
                     (Reference.modelAt "/home"))
                  (fun q m => eq_refl) (or_introl eq_refl))).
Defined.

(** ** X13 *)

(** X13. With framed helpers, after a call that got past the comparison
    the last emission is [rootPathChanged] with the normalized path while
    [rootPath()] returns the path the root directory stored; the signal's
    argument and [rootPath()] agree exactly when that directory keeps the
    normalized path as given, so they differ for a path [QDir] shortens
    and, under [showDrives], whenever [setPath("")] changes the path. *)
Theorem signal_and_rootPath {Rest : Type} (tk : Toolkit Rest)
    (p : QString) (m : Model Rest) :
  (forall q, framed (d_index tk q)) ->
  (forall i, framed (fetchMore tk i)) ->
  framed (delayedSort tk) ->
  QDir.path (rootDir m) <> longNewPath tk p ->
  List.last (emitted (exec (setRootPath tk p) m)) (otherSignal "" [])
    = rootPathChanged (longNewPath tk p)
  /\ eval rootPath (exec (setRootPath tk p) m) = stored tk (longNewPath tk p)
  /\ (List.last (emitted (exec (setRootPath tk p) m)) (otherSignal "" [])
       = rootPathChanged (eval rootPath (exec (setRootPath tk p) m))
      <-> stored tk (longNewPath tk p) = longNewPath tk p).
Proof.
  intros Hi Hf Hs Hne.
  destruct (setRootPath_step tk Hi Hf Hs p m) as (He & _ & Hd).
  apply String.eqb_neq in Hne. rewrite Hne in He, Hd.
  assert (L : List.last (emitted (exec (setRootPath tk p) m)) (otherSignal "" [])
              = rootPathChanged (longNewPath tk p))
    by (rewrite He; apply List.last_last).
  assert (R : eval rootPath (exec (setRootPath tk p) m) = stored tk (longNewPath tk p))
    by (unfold eval; rewrite rootPath_run; exact Hd).
  split; [exact L | split; [exact R |]].
  rewrite L, R. split; intros H.
  - injection H as H. symmetry. exact H.
  - rewrite H. reflexivity.
Qed.

Lemma signal_and_rootPath_witness :
  QDir.path (rootDir (Reference.modelAt "/home"))
    <> longNewPath (Reference.toolkit false) "/tmp/"
  /\ List.last (emitted (exec (setRootPath (Reference.toolkit false) "/tmp/")
                           (Reference.modelAt "/home"))) (otherSignal "" [])
     = rootPathChanged "/tmp/"
  /\ eval rootPath (exec (setRootPath (Reference.toolkit false) "/tmp/")
                      (Reference.modelAt "/home"))
     = "/tmp".
Proof.
  assert (Hne : QDir.path (rootDir (Reference.modelAt "/home"))
                <> longNewPath (Reference.toolkit false) "/tmp/")
    by (intros E; discriminate E).
  destruct (signal_and_rootPath (Reference.toolkit false) "/tmp/"
              (Reference.modelAt "/home")
              (fun q m => conj eq_refl (conj eq_refl eq_refl))
              (fun i m => conj eq_refl (conj eq_refl eq_refl))
              (fun m => conj eq_refl (conj eq_refl eq_refl))
              Hne) as (L & R & _).
  exact (conj Hne (conj L R)).
Defined.

(** * Further properties of the test translation units *)

Section MoreTestFacts.
Import Cxx Material Configurations.

(** How many spies the tests attach to each of the two model signals. *)
Example spies_per_signal :
  List.length (flat_map (spies_on "directoryLoaded") test_functions) = 18%nat
  /\ List.length (flat_map (spies_on "rootPathChanged") test_functions) = 1%nat.
Proof. split; reflexivity. Qed.

(** ** X8 *)

(** X8. In every configuration of the preprocessor, every test function
    other than the fixture hooks makes at least one assertion, except
    [tst_QFileSystemModel::shortcut], [tst_QFileInfoGatherer::symlinks] and
    [tst_QFileDialog::mimeTypeFilters]: the whole body of each sits under one
    condition, so where that condition is false the function is empty and
    passes without checking anything. *)
Theorem assertions_by_configuration (holds : string -> bool) (f : Function) :
  In f test_functions ->
  is_hook f = false ->
  asserts_something holds f
    = match condition_of f with
      | Some c => holds c
      | None => true
      end
  /\ (forall c, condition_of f = Some c -> holds c = false -> compiled holds f = []).
Proof.
  intros Hin Hh.
  pose (chk := fun f =>
    is_hook f
    || (Bool.eqb (asserts_something holds f)
          (match condition_of f with Some c => holds c | None => true end)
        && match condition_of f with
           | Some c => holds c || is_nil (compiled holds f)
           | None => true
           end)).
  assert (H : chk f = true).
  { apply (checked chk test_functions); [| exact Hin].
    vm_compute.
    destruct (holds "ifdef Q_OS_WIN"), (holds "ifdef Q_OS_UNIX"),
      (holds "if QT_CONFIG(mimetype)"); reflexivity. }
  unfold chk in H. rewrite Hh in H. cbn [orb] in H.
  apply andb_true_iff in H. destruct H as [Ha Hc].
  split; [apply Bool.eqb_prop; exact Ha |].
  intros c Ec Hf. rewrite Ec, Hf in Hc. cbn [orb] in Hc.
  destruct (compiled holds f); [reflexivity | discriminate Hc].
Qed.

Lemma assertions_by_configuration_witness :
  In tst_QFileInfoGatherer.symlinks test_functions
  /\ is_hook tst_QFileInfoGatherer.symlinks = false
  /\ asserts_something (fun c => c =? "ifdef Q_OS_WIN") tst_QFileInfoGatherer.symlinks = false
  /\ compiled (fun c => c =? "ifdef Q_OS_WIN") tst_QFileInfoGatherer.symlinks = [].
Proof.
  assert (Hin : In tst_QFileInfoGatherer.symlinks test_functions).
  { apply in_flat_map. exists tst_QFileInfoGatherer.unit. split; cbn; tauto. }
  destruct (assertions_by_configuration (fun c => c =? "ifdef Q_OS_WIN")
              tst_QFileInfoGatherer.symlinks Hin eq_refl) as (Ha & He).
  exact (conj Hin (conj eq_refl (conj Ha (He "ifdef Q_OS_UNIX" eq_refl eq_refl)))).
Defined.

(** ** X9 *)

(** X9. In every test function, a spy on [directoryLoaded] is constructed
    only after [setRootPath] has been called on its sender, and the spy on
    [rootPathChanged] is constructed before any [setRootPath] call on its
    sender: the tests expect [directoryLoaded] to arrive after the call has
    returned and [rootPathChanged] to be emitted within the call. *)
Theorem spies_and_the_call (f : Function) :
  In f test_functions ->
  spies_after_call "directoryLoaded" f = true
  /\ spies_before_call "rootPathChanged" f = true.
Proof.
  intros Hin.
  pose (chk := fun f =>
    spies_after_call "directoryLoaded" f && spies_before_call "rootPathChanged" f).
  assert (H : chk f = true) by (apply (checked chk test_functions); [reflexivity | exact Hin]).
  apply andb_true_iff in H. exact H.
Qed.

Lemma spies_and_the_call_witness :
  In tst_QFileSystemModel.drives test_functions
  /\ spies_on "directoryLoaded" tst_QFileSystemModel.drives = ["loadedSpy"]
  /\ spies_after_call "directoryLoaded" tst_QFileSystemModel.drives = true.
Proof.
  assert (Hin : In tst_QFileSystemModel.drives test_functions).
  { apply in_flat_map. exists tst_QFileSystemModel.unit. split; cbn; tauto. }
  exact (conj Hin (conj eq_refl (proj1 (spies_and_the_call tst_QFileSystemModel.drives Hin)))).
Defined.

(** ** X10 *)

(** X10. Every spy a test function constructs is read later in that
    function, except the two spies of [tst_QFileInfoGatherer::fileWatching]
    ([fileChangedSpy], [directoryChangedSpy]): that test modifies a watched
    file and waits, and checks nothing about the notifications. *)
Theorem spies_read (f : Function) :
  In f test_functions ->
  unread_spies f
    = if qualified f =? "tst_QFileInfoGatherer::fileWatching"
      then ["fileChangedSpy"; "directoryChangedSpy"]
      else [].
Proof.
  intros Hin.
  pose (chk := fun f =>
    if list_eq_dec string_dec (unread_spies f)
         (if qualified f =? "tst_QFileInfoGatherer::fileWatching"
          then ["fileChangedSpy"; "directoryChangedSpy"]
          else [])
    then true else false).
  assert (H : chk f = true) by (apply (checked chk test_functions); [reflexivity | exact Hin]).
  unfold chk in H.
  destruct (list_eq_dec string_dec (unread_spies f) _) as [E | _]; [exact E | discriminate H].
Qed.

Lemma spies_read_witness :
  In tst_QFileInfoGatherer.fileWatching test_functions
  /\ unread_spies tst_QFileInfoGatherer.fileWatching
     = ["fileChangedSpy"; "directoryChangedSpy"].
Proof.
  assert (Hin : In tst_QFileInfoGatherer.fileWatching test_functions).
  { apply in_flat_map. exists tst_QFileInfoGatherer.unit. split; cbn; tauto. }
  exact (conj Hin (spies_read tst_QFileInfoGatherer.fileWatching Hin)).
Defined.

(** ** X11 *)

(** X11. [getOpenFileName], [getSaveFileName] and [getExistingDirectory] of
    [tst_QFileDialog] consist of exactly two statements: a [QString]
    initialised by the static [QFileDialog] function of the same name,
    which nothing reads, and [QVERIFY(true)].  They are the only test
    functions of that form, and the only ones whose assertions are all
    [QVERIFY(true)]. *)
Theorem static_dialog_results_dropped (f : Function) :
  In f test_functions ->
  asserts_true_only f = member (qualified f) static_dialog_tests
  /\ calls_dialog_and_drops f = member (qualified f) static_dialog_tests
  /\ (member (qualified f) static_dialog_tests = true ->
      exists x args,
        fn_body f
          = [ Decl "QString" x [StaticCall "QFileDialog" (fn_name f) args];
              QVERIFY (Lit "true") ]).
Proof.
  intros Hin.
  pose (chk := fun f =>
    Bool.eqb (asserts_true_only f) (member (qualified f) static_dialog_tests)
    && Bool.eqb (calls_dialog_and_drops f) (member (qualified f) static_dialog_tests)).
  assert (H : chk f = true) by (apply (checked chk test_functions); [reflexivity | exact Hin]).
  apply andb_true_iff in H. destruct H as [Ha Hc].
  apply Bool.eqb_prop in Ha. apply Bool.eqb_prop in Hc.
  split; [exact Ha | split; [exact Hc |]].
  intros Hm. rewrite Hm in Hc. unfold calls_dialog_and_drops in Hc.
  destruct (fn_body f) as [| s1 [| s2 [| s3 l]]]; try discriminate Hc;
    destruct s1 as [ty x init | | | | | | | | |]; try discriminate Hc;
    destruct init as [| e [| e' init]]; try discriminate Hc;
    destruct e as [ | | | | | | | | c m args | | | | | ]; try discriminate Hc;
    destruct s2 as [ | | | n margs | | | | | |]; try discriminate Hc;
    destruct margs as [| a [| a' margs]]; try discriminate Hc;
    destruct a as [ | | | t | | | | | | | | | | ]; try discriminate Hc.
  repeat (apply andb_true_iff in Hc; destruct Hc as [Hc ?]).
  repeat match goal with E : (_ =? _) = true |- _ => apply String.eqb_eq in E end.
  subst. exists x, args. reflexivity.
Qed.

Lemma static_dialog_results_dropped_witness :
  In tst_QFileDialog.getSaveFileName test_functions
  /\ asserts_true_only tst_QFileDialog.getSaveFileName = true
  /\ calls_dialog_and_drops tst_QFileDialog.getSaveFileName = true.
Proof.
  assert (Hin : In tst_QFileDialog.getSaveFileName test_functions).
  { apply in_flat_map. exists tst_QFileDialog.unit. split; cbn; tauto. }
  destruct (static_dialog_results_dropped tst_QFileDialog.getSaveFileName Hin) as (Ha & Hc & _).
  exact (conj Hin (conj Ha Hc)).
Defined.

(** ** X12 *)

(** X12. In each test translation unit the fixture's members are written
    in [initTestCase] only: [initTestCase] comes first, begins by asserting
    [m_tempDir.isValid()] and then assigns [m_tempPath = m_tempDir.path()],
    and no other function assigns [m_tempDir] or [m_tempPath]. *)
Theorem fixture_written_once (tu : TranslationUnit) :
  In tu test_units ->
  (exists init others rest,
      tu_functions tu = init :: others
      /\ fn_name init = "initTestCase"
      /\ fn_body init
         = QVERIFY (Call (Var "m_tempDir") "isValid" [])
           :: Assign (Var "m_tempPath") (Call (Var "m_tempDir") "path" [])
           :: rest
      /\ Forall (fun s => assigns_member s = false) (flat_map flatten rest))
  /\ Forall (fun f => writes_fixture f = (fn_name f =? "initTestCase")) (tu_functions tu).
Proof.
  intros Htu. split.
  - cbn in Htu. destruct Htu as [E | [E | [E | [E | []]]]]; subst tu;
      (eexists; eexists; eexists;
       split; [reflexivity |
       split; [reflexivity |
       split; [reflexivity |
       apply Forall_forall; intros s Hs; apply negb_true_iff; revert s Hs;
       apply (proj1 (forallb_forall (fun s => negb (assigns_member s)) _));
       reflexivity]]]).
  - apply Forall_forall. intros f Hf. apply Bool.eqb_prop.
    assert (H : forallb (fun f => Bool.eqb (writes_fixture f) (fn_name f =? "initTestCase"))
                  (tu_functions tu) = true)
      by (apply (checked
                   (fun tu => forallb
                      (fun f => Bool.eqb (writes_fixture f) (fn_name f =? "initTestCase"))
                      (tu_functions tu)) test_units); [reflexivity | exact Htu]).
    exact (checked _ _ f H Hf).
Qed.

Lemma fixture_written_once_witness :
  In tst_QFileDialog.unit test_units
  /\ writes_fixture tst_QFileDialog.initTestCase = true
  /\ writes_fixture tst_QFileDialog.history = false.
Proof.
  assert (Htu : In tst_QFileDialog.unit test_units) by (cbn; tauto).
  destruct (fixture_written_once tst_QFileDialog.unit Htu) as [_ H].
  pose proof (proj1 (Forall_forall _ _) H) as H'.
  assert (Hi : In tst_QFileDialog.initTestCase (tu_functions tst_QFileDialog.unit))
    by (cbn; tauto).
  assert (Hh : In tst_QFileDialog.history (tu_functions tst_QFileDialog.unit))
    by (cbn; tauto).
  exact (conj Htu (conj (H' _ Hi) (H' _ Hh))).
Defined.

End MoreTestFacts.
